(** * The Python example plugin of stash: pyplugin.py and stash_interface.py

    A shallow embedding of the raw plugin (pkg/plugin/examples/python) and
    of its GraphQL client, followed by the properties of the plugin
    invocation protocol and of the client contract.

    Python values are the JSON fragment the program handles (numbers are
    integers), exceptions are an explicit outcome, and the effects of the
    program (HTTP posts, log calls, pauses, standard output) are recorded in
    a chronological event list threaded through a small state and exception
    monad.  Library functions whose code is not part of the repository
    (requests.post, json.dumps, str formatting) are the fields of the
    [Runtime] class; a JSON document that is read (standard input, a
    response body) is given by its decoded value. *)

From Stdlib Require Import List String Ascii ZArith QArith Bool Lia Arith DecimalString.
Import ListNotations.

Set Warnings "-register-all".

Local Open Scope string_scope.
Local Open Scope Z_scope.

(** ** Python values *)

Inductive pyval : Type :=
| PNone
| PBool (b : bool)
| PInt (z : Z)
| PStr (s : string)
| PList (l : list pyval)
| PDict (kvs : list (string * pyval)).

(** Exceptions.  [Exception msg] is the plain [raise Exception(msg)] of the
    source; the others are the built-in exceptions Python raises by itself. *)
Inductive exn : Type :=
| Exception (msg : string)
| KeyError (key : string)
| TypeError
| AttributeError
| IndexError
| JSONDecodeError
| RequestException.

Inductive Outcome (A : Type) : Type :=
| Returned (a : A)
| Raised (e : exn)
| Running.          (* the step budget of an unbounded loop ran out *)

Arguments Returned {A} a.
Arguments Raised {A} e.
Arguments Running {A}.

(** Sequencing of two steps that may raise. *)
Definition and_then {A B} (o : Outcome A) (k : A -> Outcome B) : Outcome B :=
  match o with
  | Returned a => k a
  | Raised e => Raised e
  | Running => Running
  end.

Module Py.

(** Dictionary lookup; the first binding of a key is the live one. *)
Fixpoint lookup (k : string) (kvs : list (string * pyval)) : option pyval :=
  match kvs with
  | [] => None
  | (k', v) :: rest => if String.eqb k k' then Some v else lookup k rest
  end.

(** [a == b].  [True == 1] and [False == 0] as in Python; two dictionaries
    are equal when they have the same size and every item of the first is
    an item of the second. *)
Fixpoint eq (a b : pyval) {struct a} : bool :=
  match a, b with
  | PNone, PNone => true
  | PBool x, PBool y => Bool.eqb x y
  | PBool x, PInt y => Z.eqb (Z.b2z x) y
  | PInt x, PBool y => Z.eqb x (Z.b2z y)
  | PInt x, PInt y => Z.eqb x y
  | PStr x, PStr y => String.eqb x y
  | PList xs, PList ys =>
      (fix eq_list (xs ys : list pyval) {struct xs} : bool :=
         match xs, ys with
         | [], [] => true
         | x :: xs', y :: ys' => eq x y && eq_list xs' ys'
         | _, _ => false
         end) xs ys
  | PDict xs, PDict ys =>
      Nat.eqb (List.length xs) (List.length ys) &&
      (fix eq_items (xs : list (string * pyval)) {struct xs} : bool :=
         match xs with
         | [] => true
         | (k, v) :: xs' =>
             existsb (fun kw => String.eqb k (fst kw) && eq v (snd kw)) ys
             && eq_items xs'
         end) xs
  | _, _ => false
  end.

(** Truth value of [if v:]. *)
Definition truthy (v : pyval) : bool :=
  match v with
  | PNone => false
  | PBool b => b
  | PInt z => negb (Z.eqb z 0)
  | PStr s => negb (String.eqb s EmptyString)
  | PList l => match l with [] => false | _ => true end
  | PDict kvs => match kvs with [] => false | _ => true end
  end.

Fixpoint chars (s : string) : list pyval :=
  match s with
  | EmptyString => []
  | String c rest => PStr (String c EmptyString) :: chars rest
  end.

(** [v[key]] with a string key. *)
Definition getitem (v : pyval) (key : string) : Outcome pyval :=
  match v with
  | PDict kvs =>
      match lookup key kvs with
      | Some x => Returned x
      | None => Raised (KeyError key)
      end
  | _ => Raised TypeError
  end.

(** [v[0]]. *)
Definition getitem0 (v : pyval) : Outcome pyval :=
  match v with
  | PList (x :: _) => Returned x
  | PList [] => Raised IndexError
  | PStr (String c _) => Returned (PStr (String c EmptyString))
  | PStr EmptyString => Raised IndexError
  | PDict _ => Raised (KeyError "0")
  | _ => Raised TypeError
  end.

(** [d[key] = v] on a dictionary. *)
Fixpoint setitem (key : string) (v : pyval) (kvs : list (string * pyval))
  : list (string * pyval) :=
  match kvs with
  | [] => [(key, v)]
  | (k', v') :: rest =>
      if String.eqb key k' then (key, v) :: rest
      else (k', v') :: setitem key v rest
  end.

(** [v is None]. *)
Definition is_None (v : pyval) : bool :=
  match v with PNone => true | _ => false end.

(** [v.get(key)] and [v.get(key, None)]: only dictionaries have [get]. *)
Definition get (v : pyval) (key : string) : Outcome pyval :=
  match v with
  | PDict kvs =>
      match lookup key kvs with
      | Some x => Returned x
      | None => Returned PNone
      end
  | _ => Raised AttributeError
  end.

(** The items a [for] loop or a comprehension visits. *)
Definition iter (v : pyval) : Outcome (list pyval) :=
  match v with
  | PList l => Returned l
  | PDict kvs => Returned (map (fun kv => PStr (fst kv)) kvs)
  | PStr s => Returned (chars s)
  | _ => Raised TypeError
  end.

(** [l.remove(x)]: drops the first item equal to [x]; [None] stands for
    the [ValueError] raised when there is none. *)
Fixpoint remove (x : pyval) (l : list pyval) : option (list pyval) :=
  match l with
  | [] => None
  | y :: rest =>
      if eq y x then Some rest
      else match remove x rest with
           | Some rest' => Some (y :: rest')
           | None => None
           end
  end.

(** Number of items of [l] equal to [x] ([l.count(x)]). *)
Fixpoint count (x : pyval) (l : list pyval) : nat :=
  match l with
  | [] => 0%nat
  | y :: rest => if eq y x then S (count x rest) else count x rest
  end.

End Py.

(** ** The outside world: HTTP, logging, pauses, standard output *)

Record Request : Type := {
  req_url : string;
  req_json : pyval;
  req_headers : list (string * string);
  req_cookies : pyval
}.

(** What [requests.post] hands back: the status, the raw body, and what
    [response.json()] returns ([None] when the body is not JSON). *)
Record Response : Type := {
  status_code : Z;
  content : string;
  json : option pyval
}.

Inductive LogLevel : Type := Debug | Info | Warning.

Inductive Event : Type :=
| EvLog (level : LogLevel) (msg : string)  (* log.LogDebug / LogInfo / LogWarning *)
| EvProgress (fraction : Q)                (* log.LogProgress *)
| EvSleep (seconds : Z)                    (* time.sleep *)
| EvPost (req : Request)                   (* requests.post *)
| EvStdout (text : string).                (* text written by print *)

(** The library functions and the remote service the program relies on. *)
Class Runtime : Type := {
  World : Type;
  requests_post : Request -> World -> (exn + Response) * World;
  str : pyval -> string;            (* str(v), as an f-string formats v *)
  bytes_repr : string -> string;    (* how an f-string formats a bytes body *)
  json_dumps : pyval -> string
}.

Definition nl : string := String (ascii_of_nat 10) EmptyString.

Section Program.

Context {RT : Runtime}.

Record State : Type := { world : World; events : list Event }.

Definition M (A : Type) : Type := State -> Outcome A * State.

Definition ret {A} (a : A) : M A := fun s => (Returned a, s).

Definition raise {A} (e : exn) : M A := fun s => (Raised e, s).

Definition bind {A B} (m : M A) (k : A -> M B) : M B :=
  fun s =>
    match m s with
    | (Returned a, s') => k a s'
    | (Raised e, s') => (Raised e, s')
    | (Running, s') => (Running, s')
    end.

Definition lift {A} (o : Outcome A) : M A := fun s => (o, s).

Definition emit (e : Event) : M unit :=
  fun s => (Returned tt, {| world := world s; events := events s ++ [e] |}).

(** [try: body  except Exception as e: handler e]. *)
Definition try_except {A} (body : M A) (handler : exn -> M A) : M A :=
  fun s =>
    match body s with
    | (Raised e, s') => handler e s'
    | r => r
    end.

Definition post (req : Request) : M Response :=
  fun s =>
    let (r, w) := requests_post req (world s) in
    (match r with inl e => Raised e | inr resp => Returned resp end,
     {| world := w; events := events s ++ [EvPost req] |}).

Definition log (level : LogLevel) (msg : string) : M unit := emit (EvLog level msg).
Definition sleep (seconds : Z) : M unit := emit (EvSleep seconds).
Definition print (text : string) : M unit := emit (EvStdout (text ++ nl)).

End Program.

Declare Scope py_scope.
Delimit Scope py_scope with py.
Notation "x <- m ;; k" := (bind m (fun x => k))
  (at level 61, m at next level, right associativity) : py_scope.
Notation "m ;;; k" := (bind m (fun _ => k))
  (at level 61, right associativity) : py_scope.
Local Open Scope py_scope.

(** ** stash_interface.py: the GraphQL client *)

Module Query.

(** The query texts, character for character. *)
Definition allTags : string := "
query {
  allTags {
    id
    name
  }
}
		".

Definition tagCreate : string := "
mutation tagCreate($input:TagCreateInput!) {
  tagCreate(input: $input){
    id       
  }
}
".

Definition tagDestroy : string := "
mutation tagDestroy($input: TagDestroyInput!) {
  tagDestroy(input: $input)
}
".

Definition findScenes : string := "
query findScenes($filter: FindFilterType!) {
  findScenes(filter: $filter) {
    count
    scenes {
      id
      tags {
        id
      }
    }
  }
}
".

Definition sceneUpdate : string := "
mutation sceneUpdate($input:SceneUpdateInput!) {
  sceneUpdate(input: $input) {
    id
  }
}
".

End Query.

Section Client.

Context {RT : Runtime}.

(** The instance attributes [__init__] sets. *)
Record StashInterface : Type := {
  port : pyval;
  url : string;
  cookies : pyval
}.

(** The class attribute [headers]. *)
Definition headers : list (string * string) :=
  [ ("Accept-Encoding", "gzip, deflate, br");
    ("Content-Type", "application/json");
    ("Accept", "application/json");
    ("Connection", "keep-alive");
    ("DNT", "1") ].

(** [StashInterface.__init__(self, conn)]: it touches neither the network
    nor the logs, so it is a plain function of [conn]. *)
Definition StashInterface_init (conn : pyval) : Outcome StashInterface :=
  and_then (Py.getitem conn "Port") (fun port_ =>
  and_then (Py.getitem conn "Scheme") (fun scheme =>
  let url_ := str scheme ++ "://localhost:" ++ str port_ ++ "/graphql" in
  (* Session cookie for authentication *)
  and_then (Py.get conn "SessionCookie") (fun cookie =>
  and_then (Py.get cookie "Value") (fun value =>
  Returned {| port := port_; url := url_; cookies := PDict [("session", value)] |})))).

(** The request body: [variables] is left out when it is [None]. *)
Definition request_body (query : string) (variables : pyval) : pyval :=
  let json_ := [("query", PStr query)] in
  if negb (Py.eq variables PNone)
  then PDict (Py.setitem "variables" variables json_)
  else PDict json_.

Definition request_of (self : StashInterface) (query : string) (variables : pyval)
  : Request :=
  {| req_url := url self;
     req_json := request_body query variables;
     req_headers := headers;
     req_cookies := cookies self |}.

(** The three [raise Exception(...)] of the program, under the names the
    specification gives them. *)
Definition TransportError (status : Z) (body : string) (query : string)
  (variables : pyval) : exn :=
  Exception ("GraphQL query failed:" ++ str (PInt status) ++ " - " ++ bytes_repr body
             ++ ". Query: " ++ query ++ ". Variables: " ++ str variables).

Definition GraphQLError (error : pyval) : exn :=
  Exception ("GraphQL error: " ++ str error).

Definition NoTargetError : exn := Exception "no scenes to add tag to".

(** [response.json()]. *)
Definition response_json (response : Response) : Outcome pyval :=
  match json response with
  | Some v => Returned v
  | None => Raised JSONDecodeError
  end.

(** [StashInterface.__callGraphQL(self, query, variables = None)]. *)
Definition callGraphQL (self : StashInterface) (query : string) (variables : pyval)
  : M pyval :=
  response <- post (request_of self query variables) ;;
  if negb (status_code response =? 200) then
    raise (TransportError (status_code response) (content response) query variables)
  else
    result <- lift (response_json response) ;;
    has_error <- lift (Py.get result "error") ;;
    (if Py.truthy has_error then
       err <- lift (Py.getitem result "error") ;;
       errors <- lift (Py.getitem err "errors") ;;
       items <- lift (Py.iter errors) ;;
       match items with
       | error :: _ => raise (GraphQLError error)
       | [] => ret tt
       end
     else ret tt) ;;;
    data <- lift (Py.get result "data") ;;
    if Py.truthy data then lift (Py.get result "data") else ret PNone.

(** [next((tag["id"] for tag in tags if tag["name"] == name), None)]. *)
Fixpoint first_tag_id (name : string) (tags : list pyval) : Outcome pyval :=
  match tags with
  | [] => Returned PNone
  | tag :: rest =>
      match Py.getitem tag "name" with
      | Returned n =>
          if Py.eq n (PStr name) then Py.getitem tag "id"
          else first_tag_id name rest
      | Raised e => Raised e
      | Running => Running
      end
  end.

Definition findTagIdWithName (self : StashInterface) (name : string) : M pyval :=
  result <- callGraphQL self Query.allTags PNone ;;
  allTags <- lift (Py.getitem result "allTags") ;;
  tags <- lift (Py.iter allTags) ;;
  lift (first_tag_id name tags).

Definition createTagWithName (self : StashInterface) (name : string) : M pyval :=
  let variables := PDict [("input", PDict [("name", PStr name)])] in
  result <- callGraphQL self Query.tagCreate variables ;;
  created <- lift (Py.getitem result "tagCreate") ;;
  lift (Py.getitem created "id").

Definition destroyTag (self : StashInterface) (id : pyval) : M unit :=
  let variables := PDict [("input", PDict [("id", id)])] in
  callGraphQL self Query.tagDestroy variables ;;;
  ret tt.

(** Returns [PNone] for Python's [None]. *)
Definition findRandomSceneId (self : StashInterface) : M pyval :=
  let variables :=
    PDict [("filter", PDict [("per_page", PInt 1); ("sort", PStr "random")])] in
  result <- callGraphQL self Query.findScenes variables ;;
  found <- lift (Py.getitem result "findScenes") ;;
  count <- lift (Py.getitem found "count") ;;
  if Py.eq count (PInt 0) then ret PNone
  else
    found' <- lift (Py.getitem result "findScenes") ;;
    scenes <- lift (Py.getitem found' "scenes") ;;
    lift (Py.getitem0 scenes).

Definition updateScene (self : StashInterface) (sceneData : pyval) : M unit :=
  let variables := PDict [("input", sceneData)] in
  callGraphQL self Query.sceneUpdate variables ;;;
  ret tt.

End Client.

(** ** pyplugin.py: the plugin *)

Section Plugin.

Context {RT : Runtime}.

Definition tagName : string := "Hawwwwt".

(** [[t["id"] for t in tags]]. *)
Fixpoint ids_of (tags : list pyval) : Outcome (list pyval) :=
  match tags with
  | [] => Returned []
  | t :: rest =>
      match Py.getitem t "id" with
      | Returned i =>
          match ids_of rest with
          | Returned is_ => Returned (i :: is_)
          | Raised e => Raised e
          | Running => Running
          end
      | Raised e => Raised e
      | Running => Running
      end
  end.

(** Lines 84-90 of [addTag]: remove the id first, ignoring [ValueError],
    then append it. *)
Definition with_tag (tagID : pyval) (tagIds : list pyval) : list pyval :=
  let tagIds :=
    match Py.remove tagID tagIds with
    | Some rest => rest
    | None => tagIds      (* except ValueError: pass *)
    end in
  tagIds ++ [tagID].

Definition addTag (client : StashInterface) : M unit :=
  tagID <- findTagIdWithName client tagName ;;
  tagID <- (if Py.is_None tagID then createTagWithName client tagName
            else ret tagID) ;;
  scene <- findRandomSceneId client ;;
  if Py.is_None scene then raise NoTargetError
  else
    tags <- lift (Py.getitem scene "tags") ;;
    tags <- lift (Py.iter tags) ;;
    tagIds <- lift (ids_of tags) ;;
    (* remove first to ensure we don't re-add the same id *)
    let tagIds := with_tag tagID tagIds in
    id <- lift (Py.getitem scene "id") ;;
    let input := PDict [("id", id); ("tag_ids", PList tagIds)] in
    id' <- lift (Py.getitem scene "id") ;;
    log Info ("Adding tag to scene " ++ str id') ;;;
    updateScene client input.

Definition removeTag (client : StashInterface) : M unit :=
  tagID <- findTagIdWithName client tagName ;;
  if Py.is_None tagID then
    log Info "Tag does not exist. Nothing to remove"
  else
    log Info "Destroying tag" ;;;
    destroyTag client tagID.

(** [for x in xs: body x]. *)
Fixpoint for_each {A} (xs : list A) (body : A -> M unit) : M unit :=
  match xs with
  | [] => ret tt
  | x :: rest => body x ;;; for_each rest body
  end.

(** [range(n)]. *)
Definition range (n : nat) : list Z := map Z.of_nat (seq 0 n).

(** [float(a) / float(b)], as an exact fraction. *)
Definition fdiv (a b : Z) : Q := (inject_Z a / inject_Z b)%Q.

Definition doLongTask : M unit :=
  let total := 100%nat in
  log Info "Doing long task" ;;;
  for_each (range total) (fun upTo =>
    sleep 1 ;;;
    emit (EvProgress (fdiv upTo (Z.of_nat total)))).

(** [while True: time.sleep(1)], cut after [fuel] rounds. *)
Fixpoint sleep_forever (fuel : nat) : M unit :=
  match fuel with
  | O => lift Running
  | S fuel' => sleep 1 ;;; sleep_forever fuel'
  end.

Definition doIndefiniteTask (fuel : nat) : M unit :=
  log Warning "Sleeping indefinitely" ;;;
  sleep_forever fuel.

(** [run(input, output)]; the dictionary [output] it fills in is returned. *)
Definition run (fuel : nat) (input output : pyval) : M pyval :=
  args <- lift (Py.getitem input "args") ;;
  modeArg <- lift (Py.getitem args "mode") ;;
  try_except
    (if Py.eq modeArg (PStr EmptyString) || Py.eq modeArg (PStr "add") then
       conn <- lift (Py.getitem input "server_connection") ;;
       client <- lift (StashInterface_init conn) ;;
       addTag client
     else if Py.eq modeArg (PStr "remove") then
       conn <- lift (Py.getitem input "server_connection") ;;
       client <- lift (StashInterface_init conn) ;;
       removeTag client
     else if Py.eq modeArg (PStr "long") then doLongTask
     else if Py.eq modeArg (PStr "indef") then doIndefiniteTask fuel
     else ret tt)
    (fun e => raise e (* output["error"] = str(e) is commented out *)) ;;;
  match output with
  | PDict kvs => ret (PDict (Py.setitem "output" (PStr "ok") kvs))
  | _ => raise TypeError
  end.

(** [readJSONInput()]; [stdin] is the decoded document on standard input,
    [None] when the text there is not JSON. *)
Definition readJSONInput (stdin : option pyval) : M pyval :=
  match stdin with
  | Some v => ret v
  | None => raise JSONDecodeError
  end.

(** [main()], the whole process: [argv] is [sys.argv]. *)
Definition main (fuel : nat) (argv : list string) (stdin : option pyval) : M unit :=
  input <- (if (List.length argv <? 2)%nat then
              input <- readJSONInput stdin ;;
              log Debug ("Raw input: " ++ json_dumps input) ;;;
              ret input
            else
              log Debug "Using command line inputs" ;;;
              let mode := nth 1 argv EmptyString in
              log Debug ("Command line inputs: " ++ str (PList (map PStr (tl argv)))) ;;;
              ret (PDict [("args", PDict [("mode", PStr mode)]);
                          ("server_connection",
                           PDict [("Scheme", PStr "http"); ("Port", PInt 9999)])])) ;;
  let output := PDict [] in
  output <- run fuel input output ;;
  let out := json_dumps output in
  print (out ++ nl).

(** A fresh process: nothing has happened yet. *)
Definition start (w : World) : State := {| world := w; events := [] |}.

End Plugin.

(** ** A scripted runtime

    A runtime to run the program on concrete inputs: the remote service is a
    script, the list of the answers it gives to the successive posts, and
    the formatting functions are plain renderings (no escaping). *)

Module Scripted.

Definition decimal (z : Z) : string := NilZero.string_of_int (Z.to_int z).

Definition join (sep : string) (parts : list string) : string :=
  match parts with
  | [] => EmptyString
  | p :: rest => fold_left (fun acc x => acc ++ sep ++ x) rest p
  end.

(** [render none true false quote v]: Python's [repr] or JSON text,
    depending on the spellings given. *)
Fixpoint render (none true_ false_ quote : string) (v : pyval) : string :=
  match v with
  | PNone => none
  | PBool b => if b then true_ else false_
  | PInt z => decimal z
  | PStr s => quote ++ s ++ quote
  | PList l => "[" ++ join ", " (map (render none true_ false_ quote) l) ++ "]"
  | PDict kvs =>
      "{" ++ join ", "
               (map (fun kv => quote ++ fst kv ++ quote ++ ": "
                               ++ render none true_ false_ quote (snd kv)) kvs)
          ++ "}"
  end.

Definition repr : pyval -> string := render "None" "True" "False" "'".

Definition py_str (v : pyval) : string :=
  match v with
  | PStr s => s
  | _ => repr v
  end.

Definition dumps : pyval -> string :=
  render "null" "true" "false" (String (ascii_of_nat 34) EmptyString).

Definition answer (req : Request) (script : list (exn + Response))
  : (exn + Response) * list (exn + Response) :=
  match script with
  | [] => (inl RequestException, [])
  | r :: rest => (r, rest)
  end.

Definition runtime : Runtime :=
  {| World := list (exn + Response);
     requests_post := answer;
     str := py_str;
     bytes_repr := fun body => "b'" ++ body ++ "'";
     json_dumps := dumps |}.

(** A [200] answer carrying the JSON value [body]. *)
Definition ok200 (body : pyval) : exn + Response :=
  inr {| status_code := 200; content := dumps body; json := Some body |}.

(** The Invocation Input a host sends on standard input. *)
Definition invocation (mode : string) : pyval :=
  PDict [("args", PDict [("mode", PStr mode)]);
         ("server_connection",
          PDict [("Scheme", PStr "http"); ("Port", PInt 9999);
                 ("SessionCookie", PDict [("Value", PStr "cookie")])])].

End Scripted.

#[local] Existing Instance Scripted.runtime.

(** ** Reading the event list *)

Local Open Scope list_scope.

(** The requests posted, oldest first. *)
Definition posts (tr : list Event) : list Request :=
  flat_map (fun e => match e with EvPost r => [r] | _ => [] end) tr.

(** The texts written to standard output, oldest first. *)
Definition stdout (tr : list Event) : list string :=
  flat_map (fun e => match e with EvStdout t => [t] | _ => [] end) tr.

(** The fractions reported through [log.LogProgress], oldest first. *)
Definition progress (tr : list Event) : list Q :=
  flat_map (fun e => match e with EvProgress q => [q] | _ => [] end) tr.

Definition query_of (r : Request) : option string :=
  match req_json r with
  | PDict kvs =>
      match Py.lookup "query" kvs with
      | Some (PStr q) => Some q
      | _ => None
      end
  | _ => None
  end.

Definition has_query (q : string) (r : Request) : bool :=
  match query_of r with
  | Some q' => String.eqb q q'
  | None => false
  end.

(** The posts of [tr] that carry the query text [q]. *)
Definition calls (q : string) (tr : list Event) : list Request :=
  filter (has_query q) (posts tr).

(** The three mutations of the client: createTagWithName, destroyTag and
    updateScene. *)
Definition is_mutation (r : Request) : bool :=
  has_query Query.tagCreate r || has_query Query.tagDestroy r
  || has_query Query.sceneUpdate r.

Definition mutations (tr : list Event) : list Request :=
  filter is_mutation (posts tr).

(** ** Basic facts about the monad and the client *)

Ltac break_match :=
  match goal with
  | |- context [match ?x with _ => _ end] =>
      lazymatch type of x with
      | prod _ _ => fail
      | _ => destruct x eqn:?
      end
  end.

Ltac run_cases := repeat (simpl; try break_match); simpl; try reflexivity.

Section Facts.

Context {RT : Runtime}.

Lemma bind_returned {A B} (m : M A) (k : A -> M B) s a s' :
  m s = (Returned a, s') -> bind m k s = k a s'.
Proof. intros H. unfold bind. rewrite H. reflexivity. Qed.

Lemma bind_raised {A B} (m : M A) (k : A -> M B) s e s' :
  m s = (Raised e, s') -> bind m k s = (Raised e, s').
Proof. intros H. unfold bind. rewrite H. reflexivity. Qed.

(** The state after a post: the world has answered, the post is logged. *)
Definition posted (req : Request) (s : State) : State :=
  {| world := snd (requests_post req (world s));
     events := events s ++ [EvPost req] |}.

Lemma post_state req s : snd (post req s) = posted req s.
Proof.
  unfold post, posted. destruct (requests_post req (world s)); reflexivity.
Qed.

(** Every call of the client posts exactly one request, whatever comes back. *)
Lemma callGraphQL_state self q v s :
  snd (callGraphQL self q v s) = posted (request_of self q v) s.
Proof.
  rewrite <- post_state. unfold callGraphQL, bind.
  destruct (post (request_of self q v) s) as [[resp|e|] s1]; simpl; try reflexivity.
  unfold lift, ret, raise. run_cases.
Qed.

Lemma findTagIdWithName_state self name s :
  snd (findTagIdWithName self name s) = posted (request_of self Query.allTags PNone) s.
Proof.
  rewrite <- callGraphQL_state. unfold findTagIdWithName, bind.
  destruct (callGraphQL self Query.allTags PNone s) as [[r|e|] s1]; simpl; try reflexivity.
  unfold lift. run_cases.
Qed.

Lemma createTagWithName_state self name s :
  snd (createTagWithName self name s)
  = posted (request_of self Query.tagCreate
              (PDict [("input", PDict [("name", PStr name)])])) s.
Proof.
  rewrite <- callGraphQL_state. unfold createTagWithName, bind.
  match goal with |- context [callGraphQL ?a ?b ?c ?d] =>
    destruct (callGraphQL a b c d) as [[r|e|] s1] end; simpl; try reflexivity.
  unfold lift. run_cases.
Qed.

Lemma findRandomSceneId_state self s :
  snd (findRandomSceneId self s)
  = posted (request_of self Query.findScenes
              (PDict [("filter", PDict [("per_page", PInt 1); ("sort", PStr "random")])])) s.
Proof.
  rewrite <- callGraphQL_state. unfold findRandomSceneId, bind.
  match goal with |- context [callGraphQL ?a ?b ?c ?d] =>
    destruct (callGraphQL a b c d) as [[r|e|] s1] end; simpl; try reflexivity.
  unfold lift, ret. run_cases.
Qed.

Lemma updateScene_state self sceneData s :
  snd (updateScene self sceneData s)
  = posted (request_of self Query.sceneUpdate (PDict [("input", sceneData)])) s.
Proof.
  rewrite <- callGraphQL_state. unfold updateScene, bind.
  match goal with |- context [callGraphQL ?a ?b ?c ?d] =>
    destruct (callGraphQL a b c d) as [[r|e|] s1] end; simpl; reflexivity.
Qed.

Lemma destroyTag_state self id s :
  snd (destroyTag self id s)
  = posted (request_of self Query.tagDestroy (PDict [("input", PDict [("id", id)])])) s.
Proof.
  rewrite <- callGraphQL_state. unfold destroyTag, bind.
  match goal with |- context [callGraphQL ?a ?b ?c ?d] =>
    destruct (callGraphQL a b c d) as [[r|e|] s1] end; simpl; reflexivity.
Qed.

Lemma query_of_request self q v : query_of (request_of self q v) = Some q.
Proof.
  unfold query_of, request_of, request_body; simpl.
  destruct (negb (Py.eq v PNone)); reflexivity.
Qed.

Lemma has_query_request self q q' v :
  has_query q (request_of self q' v) = String.eqb q q'.
Proof. unfold has_query. rewrite query_of_request. reflexivity. Qed.

Lemma posts_app tr1 tr2 : posts (tr1 ++ tr2) = posts tr1 ++ posts tr2.
Proof. unfold posts. apply flat_map_app. Qed.

Lemma calls_app q tr1 tr2 : calls q (tr1 ++ tr2) = calls q tr1 ++ calls q tr2.
Proof. unfold calls. rewrite posts_app. apply filter_app. Qed.

Lemma mutations_app tr1 tr2 : mutations (tr1 ++ tr2) = mutations tr1 ++ mutations tr2.
Proof. unfold mutations. rewrite posts_app. apply filter_app. Qed.

Lemma stdout_app tr1 tr2 : stdout (tr1 ++ tr2) = stdout tr1 ++ stdout tr2.
Proof. unfold stdout. apply flat_map_app. Qed.

End Facts.

(** ** Concrete inputs on the scripted runtime *)

Module Sample.

(** The client [StashInterface(conn)] builds from the connection of
    [Scripted.invocation]. *)
Definition client : StashInterface :=
  {| port := PInt 9999;
     url := "http://localhost:9999/graphql";
     cookies := PDict [("session", PStr "cookie")] |}.

Definition fresh (script : list (exn + Response)) : State := start script.

(** A body in the shape [__callGraphQL] inspects for errors. *)
Definition error_body : pyval :=
  PDict [("error", PDict [("errors", PList [PStr "boom"; PStr "bang"])])].

(** A body that lists the errors both at the top level, as a GraphQL
    server does, and in the shape [__callGraphQL] inspects. *)
Definition errors_body : pyval :=
  PDict [("errors", PList [PStr "boom"; PStr "bang"]);
         ("error", PDict [("errors", PList [PStr "boom"; PStr "bang"])])].

(** A body with top-level errors only, next to some data. *)
Definition top_level_errors_body : pyval :=
  PDict [("errors", PList [PStr "boom"]);
         ("data", PDict [("allTags", PList [])])].

Definition not_found : Response :=
  {| status_code := 404; content := "404 page not found"; json := None |}.

Definition created_with_errors : Response :=
  {| status_code := 201; content := Scripted.dumps errors_body; json := Some errors_body |}.

Definition ok_with_errors : Response :=
  {| status_code := 200; content := Scripted.dumps error_body; json := Some error_body |}.

Definition ok_with_top_level_errors : Response :=
  {| status_code := 200;
     content := Scripted.dumps top_level_errors_body;
     json := Some top_level_errors_body |}.

End Sample.

(** ** The GraphQL client *)

Section ClientProperties.

Context {RT : Runtime}.

Lemma get_truthy_getitem v key x :
  Py.get v key = Returned x -> Py.truthy x = true -> Py.getitem v key = Returned x.
Proof.
  destruct v; simpl; try discriminate.
  destruct (Py.lookup key kvs); intros H Ht; inversion H; subst; auto.
  discriminate.
Qed.

Lemma TransportError_not_GraphQLError status body query variables error :
  TransportError status body query variables <> GraphQLError error.
Proof. unfold TransportError, GraphQLError. simpl. congruence. Qed.

(** C6.  When the HTTP answer to an execute call has a status outside
    200..299, [__callGraphQL] raises the transport failure, whose message
    carries the status code and the raw body; the outcome is fixed by the
    status and the raw body alone, whatever the body decodes to (a body that
    is not JSON, or one that lists errors, included): the failure is neither
    a JSON decoding error nor a GraphQL error, and nothing is returned. *)
Theorem callGraphQL_non_2xx_is_transport_error
  (self : StashInterface) (query : string) (variables : pyval)
  (s : State) (response : Response) (w : World) :
  requests_post (request_of self query variables) (world s) = (inr response, w) ->
  ~ (200 <= status_code response <= 299)%Z ->
  callGraphQL self query variables s
  = (Raised (TransportError (status_code response) (content response) query variables),
     {| world := w; events := events s ++ [EvPost (request_of self query variables)] |})
  /\ TransportError (status_code response) (content response) query variables
     = Exception ("GraphQL query failed:" ++ str (PInt (status_code response)) ++ " - "
                  ++ bytes_repr (content response) ++ ". Query: " ++ query
                  ++ ". Variables: " ++ str variables)%string
  /\ (forall error,
        TransportError (status_code response) (content response) query variables
        <> GraphQLError error)
  /\ TransportError (status_code response) (content response) query variables
     <> JSONDecodeError.
Proof.
  intros Hpost Hstatus.
  assert (Hne : (status_code response =? 200)%Z = false) by (apply Z.eqb_neq; lia).
  repeat split.
  - unfold callGraphQL, bind, post. rewrite Hpost. simpl. rewrite Hne. reflexivity.
  - intros error. apply TransportError_not_GraphQLError.
  - discriminate.
Qed.

(** C2, amended.  When the HTTP answer has status 200 exactly and its JSON
    body has a truthy [error] member whose [errors] member is a non-empty
    collection, [__callGraphQL] raises the GraphQL failure built from the
    first error, and returns nothing. *)
Theorem callGraphQL_200_errors_raise_first
  (self : StashInterface) (query : string) (variables : pyval)
  (s : State) (response : Response) (w : World)
  (body err errors first : pyval) (rest : list pyval) :
  requests_post (request_of self query variables) (world s) = (inr response, w) ->
  status_code response = 200%Z ->
  json response = Some body ->
  Py.get body "error" = Returned err ->
  Py.truthy err = true ->
  Py.getitem err "errors" = Returned errors ->
  Py.iter errors = Returned (first :: rest) ->
  callGraphQL self query variables s
  = (Raised (GraphQLError first),
     {| world := w; events := events s ++ [EvPost (request_of self query variables)] |})
  /\ GraphQLError first = Exception ("GraphQL error: " ++ str first)%string.
Proof.
  intros Hpost Hstatus Hjson Hget Htruthy Herrors Hiter.
  split; [|reflexivity].
  unfold callGraphQL, bind, post. rewrite Hpost. simpl.
  rewrite Hstatus. simpl. unfold lift, response_json. rewrite Hjson, Hget, Htruthy.
  rewrite (get_truthy_getitem _ _ _ Hget Htruthy), Herrors, Hiter.
  reflexivity.
Qed.

End ClientProperties.

(** Witness of C6: a 404 answer whose body is not JSON. *)
Lemma callGraphQL_non_2xx_witness :
  callGraphQL Sample.client Query.allTags PNone
     (Sample.fresh [inr Sample.not_found])
  = (Raised (TransportError 404 "404 page not found" Query.allTags PNone),
     {| world := [];
        events := [EvPost (request_of Sample.client Query.allTags PNone)] |}).
Proof.
  apply (@callGraphQL_non_2xx_is_transport_error Scripted.runtime Sample.client
           Query.allTags PNone (Sample.fresh [inr Sample.not_found]) Sample.not_found []).
  - reflexivity.
  - simpl. lia.
Defined.

(** Witness of C2 as amended: a 200 answer listing two errors surfaces the
    first. *)
Lemma callGraphQL_200_errors_witness :
  fst (callGraphQL Sample.client Query.allTags PNone
         (Sample.fresh [inr Sample.ok_with_errors]))
  = Raised (GraphQLError (PStr "boom")).
Proof.
  refine (f_equal fst (proj1 (@callGraphQL_200_errors_raise_first Scripted.runtime
           Sample.client Query.allTags PNone (Sample.fresh [inr Sample.ok_with_errors])
           Sample.ok_with_errors [] Sample.error_body
           (PDict [("errors", PList [PStr "boom"; PStr "bang"])])
           (PList [PStr "boom"; PStr "bang"]) (PStr "boom") [PStr "bang"]
           _ _ _ _ _ _ _))); reflexivity.
Defined.

(** C2 as stated fails: status 201 is a 2xx status and the body lists two
    errors, at the top level and in the shape the client inspects, yet the
    client raises the transport failure, which is not the GraphQL failure of
    the first error. *)
Lemma callGraphQL_201_errors_is_transport_error :
  (200 <= status_code Sample.created_with_errors <= 299)%Z
  /\ json Sample.created_with_errors = Some Sample.errors_body
  /\ Py.getitem Sample.errors_body "errors" = Returned (PList [PStr "boom"; PStr "bang"])
  /\ Py.getitem Sample.errors_body "error"
     = Returned (PDict [("errors", PList [PStr "boom"; PStr "bang"])])
  /\ fst (callGraphQL Sample.client Query.allTags PNone
            (Sample.fresh [inr Sample.created_with_errors]))
     = Raised (TransportError 201 (Scripted.dumps Sample.errors_body) Query.allTags PNone)
  /\ fst (callGraphQL Sample.client Query.allTags PNone
            (Sample.fresh [inr Sample.created_with_errors]))
     <> Raised (GraphQLError (PStr "boom")).
Proof.
  repeat split; try (simpl; lia).
  intros H. vm_compute in H. discriminate H.
Qed.

(** Errors listed at the top level of a 200 body only, under [errors], are
    not looked at: the [data] member is returned. *)
Example callGraphQL_top_level_errors_pass :
  fst (callGraphQL Sample.client Query.allTags PNone
         (Sample.fresh [inr Sample.ok_with_top_level_errors]))
  = Returned (PDict [("allTags", PList [])]).
Proof. reflexivity. Qed.

(** ** The plugin: reading the input and dispatching *)

Section PluginFacts.

Context {RT : Runtime}.

(** [s] with the events [es] appended. *)
Definition record (es : list Event) (s : State) : State :=
  {| world := world s; events := events s ++ es |}.

Lemma record_record es1 es2 s : record es2 (record es1 s) = record (es1 ++ es2) s.
Proof. unfold record. simpl. rewrite app_assoc. reflexivity. Qed.

Lemma record_nil s : record [] s = s.
Proof. destruct s. unfold record. simpl. rewrite app_nil_r. reflexivity. Qed.

Lemma emit_record e s : emit e s = (Returned tt, record [e] s).
Proof. reflexivity. Qed.

(** The synthetic Invocation Input [main] builds from [sys.argv[1]]. *)
Definition command_line_input (mode : string) : pyval :=
  PDict [("args", PDict [("mode", PStr mode)]);
         ("server_connection", PDict [("Scheme", PStr "http"); ("Port", PInt 9999)])].

(** What [main] logs while it reads its input. *)
Definition input_log (argv : list string) (input : pyval) : list Event :=
  if (List.length argv <? 2)%nat
  then [EvLog Debug ("Raw input: " ++ json_dumps input)%string]
  else [EvLog Debug "Using command line inputs";
        EvLog Debug ("Command line inputs: " ++ str (PList (map PStr (tl argv))))%string].

(** [input] is the Invocation Input [main] works on. *)
Definition invoked_with (argv : list string) (stdin : option pyval) (input : pyval) : Prop :=
  ((List.length argv < 2)%nat /\ stdin = Some input)
  \/ ((2 <= List.length argv)%nat /\ input = command_line_input (nth 1 argv EmptyString)).

Lemma main_unfold fuel argv stdin input s :
  invoked_with argv stdin input ->
  main fuel argv stdin s
  = bind (run fuel input (PDict []))
         (fun output => print (json_dumps output ++ nl)%string)
         (record (input_log argv input) s).
Proof.
  unfold invoked_with, main, input_log.
  intros [[Hlen Hin] | [Hlen Hin]].
  - apply Nat.ltb_lt in Hlen. rewrite Hlen. subst stdin. reflexivity.
  - apply Nat.ltb_ge in Hlen. rewrite Hlen. subst input.
    unfold bind, log, emit, ret, record. simpl. rewrite <- app_assoc. reflexivity.
Qed.

(** [input['args']["mode"]] is the string [mode]. *)
Definition mode_is (input : pyval) (mode : string) : Prop :=
  exists args, Py.getitem input "args" = Returned args
               /\ Py.getitem args "mode" = Returned (PStr mode).

Lemma command_line_mode mode : mode_is (command_line_input mode) mode.
Proof. exists (PDict [("mode", PStr mode)]). split; reflexivity. Qed.

Lemma for_each_emit {A} (f : A -> list Event) (body : A -> M unit) (xs : list A) :
  (forall x s, body x s = (Returned tt, record (f x) s)) ->
  forall s, for_each xs body s = (Returned tt, record (flat_map f xs) s).
Proof.
  intros Hbody. induction xs as [|x xs IH]; intros s; simpl.
  - unfold ret. rewrite record_nil. reflexivity.
  - unfold bind. rewrite Hbody, IH, record_record. reflexivity.
Qed.

(** What [doLongTask] does, in order. *)
Definition long_task_events : list Event :=
  EvLog Info "Doing long task"
  :: flat_map (fun upTo => [EvSleep 1; EvProgress (fdiv upTo 100)]) (range 100).

Lemma doLongTask_events s :
  doLongTask s = (Returned tt, record long_task_events s).
Proof.
  unfold doLongTask, long_task_events, bind, log. rewrite emit_record.
  rewrite (for_each_emit (fun upTo => [EvSleep 1; EvProgress (fdiv upTo 100)])).
  - rewrite record_record. reflexivity.
  - intros x s0. change (Z.of_nat 100) with 100%Z.
    unfold bind, sleep, emit, record. simpl. rewrite <- app_assoc. reflexivity.
Qed.

Lemma run_long fuel input s :
  mode_is input "long" ->
  run fuel input (PDict []) s
  = (Returned (PDict [("output", PStr "ok")]), record long_task_events s).
Proof.
  intros [args [Hargs Hmode]].
  unfold run, bind, lift, try_except. rewrite Hargs, Hmode.
  change (Py.eq (PStr "long") (PStr EmptyString) || Py.eq (PStr "long") (PStr "add"))
    with false.
  change (Py.eq (PStr "long") (PStr "remove")) with false.
  change (Py.eq (PStr "long") (PStr "long")) with true.
  cbv iota. rewrite doLongTask_events. reflexivity.
Qed.

Lemma progress_long_task :
  progress long_task_events = map (fun upTo => fdiv upTo 100) (range 100).
Proof. reflexivity. Qed.

Lemma fdiv_lt a b : (a < b)%Z -> (fdiv a 100 < fdiv b 100)%Q.
Proof.
  intros H. unfold fdiv, Qlt, Qdiv, Qmult, Qinv, inject_Z. simpl. lia.
Qed.

Lemma nth_range i n : (i < n)%nat -> nth i (range n) 0%Z = Z.of_nat i.
Proof.
  intros H. unfold range.
  rewrite (nth_indep _ 0%Z (Z.of_nat 0)) by (rewrite length_map, length_seq; exact H).
  rewrite map_nth, seq_nth by exact H. reflexivity.
Qed.

Lemma nth_progress_long_task i :
  (i < 100)%nat ->
  nth i (progress long_task_events) 0%Q = fdiv (Z.of_nat i) 100.
Proof.
  intros H. rewrite progress_long_task.
  rewrite (nth_indep _ 0%Q (fdiv 0 100))
    by (rewrite length_map; unfold range; rewrite length_map, length_seq; exact H).
  rewrite (map_nth (fun upTo => fdiv upTo 100)), nth_range by exact H. reflexivity.
Qed.

End PluginFacts.

(** ** Mode "long" *)

(** C5, amended.  An invocation with mode "long", read from standard input
    or from the command line, returns normally after [doLongTask]: one
    information line, then 100 rounds of a one-second pause followed by a
    progress report, and only then the terminal output on standard output.
    The 100 reports are the fractions upTo/100 for upTo = 0, ..., 99 in
    this order: strictly increasing, from 0.00 up to 0.99. *)
Theorem long_task_reports {RT : Runtime}
  (fuel : nat) (argv : list string) (stdin : option pyval) (input : pyval) (s : State) :
  invoked_with argv stdin input ->
  mode_is input "long" ->
  main fuel argv stdin s
  = (Returned tt,
     record (input_log argv input ++ long_task_events
             ++ [EvStdout ((json_dumps (PDict [("output", PStr "ok")]) ++ nl) ++ nl)%string]) s)
  /\ progress (input_log argv input) = []
  /\ long_task_events
     = EvLog Info "Doing long task"
       :: flat_map (fun upTo => [EvSleep 1; EvProgress (fdiv upTo 100)]) (range 100)
  /\ List.length (progress long_task_events) = 100%nat
  /\ (forall i, (i < 100)%nat ->
        nth i (progress long_task_events) 0%Q = fdiv (Z.of_nat i) 100)
  /\ (forall i j, (i < j < 100)%nat ->
        (nth i (progress long_task_events) 0 < nth j (progress long_task_events) 0)%Q)
  /\ (nth 0 (progress long_task_events) 0 == 0)%Q
  /\ (nth 99 (progress long_task_events) 0 == 99 # 100)%Q.
Proof.
  intros Hin Hmode.
  split; [|split; [|split; [|split; [|split; [|split; [|split]]]]]].
  - rewrite (main_unfold _ _ _ _ _ Hin). unfold bind.
    rewrite (run_long _ _ _ Hmode). unfold print. rewrite emit_record.
    rewrite !record_record. reflexivity.
  - unfold input_log. destruct (List.length argv <? 2)%nat; reflexivity.
  - reflexivity.
  - reflexivity.
  - intros i Hi. apply nth_progress_long_task. exact Hi.
  - intros i j Hij. rewrite !nth_progress_long_task by lia.
    apply fdiv_lt. lia.
  - vm_compute. reflexivity.
  - vm_compute. reflexivity.
Qed.

(** Witness of C5 as amended: the process started as [pyplugin.py long]. *)
Lemma long_task_reports_witness :
  fst (main 0 ["pyplugin.py"; "long"] None (Sample.fresh [])) = Returned tt
  /\ List.length (progress long_task_events) = 100%nat.
Proof.
  pose proof (@long_task_reports Scripted.runtime 0 ["pyplugin.py"; "long"] None
                (command_line_input "long") (Sample.fresh [])
                (or_intror (conj (le_n 2) eq_refl))
                (command_line_mode "long")) as H.
  split.
  - exact (f_equal fst (proj1 H)).
  - exact (proj1 (proj2 (proj2 (proj2 H)))).
Defined.

(** C5 as stated fails: the first report of a "long" run is 0, not 0.01,
    and the last one is 99/100, not 1.00. *)
Lemma long_task_reports_start_at_zero :
  let reports := progress (events (snd (main 0 ["pyplugin.py"; "long"] None (Sample.fresh [])))) in
  List.length reports = 100%nat
  /\ (hd 0 reports == 0)%Q
  /\ ~ (hd 0 reports == 1 # 100)%Q
  /\ (last reports 0 == 99 # 100)%Q
  /\ ~ (last reports 0 == 1)%Q.
Proof.
  vm_compute. repeat split; intros H; discriminate H.
Qed.

(** ** Footprints: which events a computation may add *)

Section Footprint.

Context {RT : Runtime}.

(** [m] only ever appends events that satisfy [P]. *)
Definition only (P : Event -> Prop) {A} (m : M A) : Prop :=
  forall s, exists es, events (snd (m s)) = events s ++ es /\ Forall P es.

Variable P : Event -> Prop.

Lemma only_lift {A} (o : Outcome A) : only P (lift o).
Proof. intros s. exists []. simpl. rewrite app_nil_r. auto. Qed.

Lemma only_ret {A} (a : A) : only P (ret a).
Proof. exact (only_lift (Returned a)). Qed.

Lemma only_raise {A} (e : exn) : only P (@raise _ A e).
Proof. exact (only_lift (Raised e)). Qed.

Lemma only_emit e : P e -> only P (emit e).
Proof. intros He s. exists [e]. simpl. auto. Qed.

Lemma only_post req : P (EvPost req) -> only P (post req).
Proof.
  intros He s. exists [EvPost req]. rewrite post_state. simpl. auto.
Qed.

Lemma only_bind {A B} (m : M A) (k : A -> M B) :
  only P m -> (forall a, only P (k a)) -> only P (bind m k).
Proof.
  intros Hm Hk s. destruct (Hm s) as [es [Hes HP]]. unfold bind.
  destruct (m s) as [[a|e|] s1]; simpl in *; eauto.
  destruct (Hk a s1) as [es' [Hes' HP']].
  exists (es ++ es'). rewrite Hes', Hes, app_assoc. split; [reflexivity|].
  apply Forall_app; auto.
Qed.

Lemma only_try_except {A} (body : M A) (handler : exn -> M A) :
  only P body -> (forall e, only P (handler e)) -> only P (try_except body handler).
Proof.
  intros Hm Hk s. destruct (Hm s) as [es [Hes HP]]. unfold try_except.
  destruct (body s) as [[a|e|] s1]; simpl in *; eauto.
  destruct (Hk e s1) as [es' [Hes' HP']].
  exists (es ++ es'). rewrite Hes', Hes, app_assoc. split; [reflexivity|].
  apply Forall_app; auto.
Qed.

Lemma only_for_each {A} (xs : list A) (body : A -> M unit) :
  (forall x, only P (body x)) -> only P (for_each xs body).
Proof.
  intros Hbody. induction xs as [|x xs IH]; simpl.
  - apply only_ret.
  - apply only_bind; auto.
Qed.

End Footprint.

(** Splits a computation along its binds and branches. *)
Ltac footprint :=
  repeat match goal with
    | |- only _ (for_each _ _) => apply only_for_each; intros
    | |- only _ (bind _ _) => apply only_bind; [|intros]
    | |- only _ (try_except _ _) => apply only_try_except; [|intros]
    | |- only _ (lift _) => apply only_lift
    | |- only _ (ret _) => apply only_ret
    | |- only _ (raise _) => apply only_raise
    | |- only _ (emit _) => apply only_emit; exact I
    | |- only _ (post _) => apply only_post; exact I
    | |- only _ (if ?b then _ else _) => destruct b
    | |- only _ (match ?x with _ => _ end) => destruct x
    | H : only ?P ?m |- only ?P ?m => exact H
    end.

Section Silence.

Context {RT : Runtime}.

(** Everything but a write to standard output. *)
Definition silent (e : Event) : Prop :=
  match e with
  | EvStdout _ => False
  | _ => True
  end.

Lemma stdout_silent es : Forall silent es -> stdout es = [].
Proof.
  induction 1 as [|e es He _ IH]; [reflexivity|].
  destruct e; simpl in *; auto. contradiction.
Qed.

Lemma callGraphQL_silent self q v : only silent (callGraphQL self q v).
Proof. unfold callGraphQL. footprint. Qed.

Lemma addTag_silent client : only silent (addTag client).
Proof.
  unfold addTag, findTagIdWithName, createTagWithName, findRandomSceneId,
    updateScene, log.
  footprint; apply callGraphQL_silent.
Qed.

Lemma removeTag_silent client : only silent (removeTag client).
Proof.
  unfold removeTag, findTagIdWithName, destroyTag, log.
  footprint; apply callGraphQL_silent.
Qed.

Lemma doLongTask_silent : only silent doLongTask.
Proof.
  unfold doLongTask, log, sleep. footprint.
Qed.

Lemma doIndefiniteTask_silent fuel : only silent (doIndefiniteTask fuel).
Proof.
  unfold doIndefiniteTask, log. footprint.
  induction fuel as [|fuel IH]; simpl; unfold sleep; footprint.
Qed.

Lemma run_silent fuel input output : only silent (run fuel input output).
Proof.
  unfold run. footprint;
    match goal with
    | |- only _ (addTag _) => apply addTag_silent
    | |- only _ (removeTag _) => apply removeTag_silent
    | |- only _ doLongTask => apply doLongTask_silent
    | |- only _ (doIndefiniteTask _) => apply doIndefiniteTask_silent
    end.
Qed.

Lemma read_input_silent argv stdin :
  only silent
    (if (List.length argv <? 2)%nat then
       bind (readJSONInput stdin) (fun input =>
         bind (log Debug ("Raw input: " ++ json_dumps input)%string) (fun _ => ret input))
     else
       bind (log Debug "Using command line inputs") (fun _ =>
         bind (log Debug ("Command line inputs: "
                          ++ str (PList (map PStr (tl argv))))%string) (fun _ =>
           ret (command_line_input (nth 1 argv EmptyString))))).
Proof. unfold readJSONInput, log. footprint. Qed.

(** When [main] does not return normally, standard output is left as it
    was: the failure of an operation reaches the process boundary and no
    Invocation Output is written. *)
Lemma main_failure_writes_nothing fuel argv stdin s :
  match main fuel argv stdin s with
  | (Returned _, _) => True
  | (_, s') => stdout (events s') = stdout (events s)
  end.
Proof.
  unfold main. fold (command_line_input (nth 1 argv EmptyString)).
  pose proof (read_input_silent argv stdin s) as [es1 [H1 P1]].
  unfold bind at 1.
  match goal with |- context [match ?m s with _ => _ end] =>
    destruct (m s) as [[input|e|] s1] end; simpl in H1;
    try (rewrite H1, stdout_app, (stdout_silent _ P1), app_nil_r; reflexivity).
  pose proof (run_silent fuel input (PDict []) s1) as [es2 [H2 P2]].
  unfold bind.
  destruct (run fuel input (PDict []) s1) as [[output|e|] s2]; simpl in H2; simpl; auto;
    rewrite H2, H1, !stdout_app, (stdout_silent _ P1), (stdout_silent _ P2);
    rewrite !app_nil_r; reflexivity.
Qed.

End Silence.

(** ** The terminal output and the failure policy *)

Module Remote.

(** Canned answers of a Stash server. *)

Definition tag (id name : string) : pyval :=
  PDict [("id", PStr id); ("name", PStr name)].

Definition all_tags (tags : list pyval) : exn + Response :=
  Scripted.ok200 (PDict [("data", PDict [("allTags", PList tags)])]).

Definition scene (id : string) (tag_ids : list string) : pyval :=
  PDict [("id", PStr id);
         ("tags", PList (map (fun t => PDict [("id", PStr t)]) tag_ids))].

Definition find_scenes (count : Z) (scenes : list pyval) : exn + Response :=
  Scripted.ok200
    (PDict [("data", PDict [("findScenes",
       PDict [("count", PInt count); ("scenes", PList scenes)])])]).

Definition tag_created (id : string) : exn + Response :=
  Scripted.ok200 (PDict [("data", PDict [("tagCreate", PDict [("id", PStr id)])])]).

Definition scene_updated (id : string) : exn + Response :=
  Scripted.ok200 (PDict [("data", PDict [("sceneUpdate", PDict [("id", PStr id)])])]).

End Remote.

Section Output.

Context {RT : Runtime}.

(** The Invocation Output of a run that went through. *)
Definition success_output : pyval := PDict [("output", PStr "ok")].

(** What [print(json.dumps(output) + "\n")] writes. *)
Definition terminal_text (output : pyval) : string :=
  ((json_dumps output ++ nl) ++ nl)%string.

Lemma input_log_quiet argv input :
  posts (input_log argv input) = [] /\ stdout (input_log argv input) = [].
Proof. unfold input_log. destruct (List.length argv <? 2)%nat; split; reflexivity. Qed.

(** The success path of [__callGraphQL]: status 200, no error member, a
    truthy [data] member. *)
Lemma callGraphQL_data self q v s response w body err data :
  requests_post (request_of self q v) (world s) = (inr response, w) ->
  status_code response = 200%Z ->
  json response = Some body ->
  Py.get body "error" = Returned err ->
  Py.truthy err = false ->
  Py.get body "data" = Returned data ->
  Py.truthy data = true ->
  callGraphQL self q v s
  = (Returned data, {| world := w; events := events s ++ [EvPost (request_of self q v)] |}).
Proof.
  intros Hpost Hstatus Hjson Herr Hfalsy Hdata Htruthy.
  unfold callGraphQL, bind, post. rewrite Hpost. simpl. rewrite Hstatus. simpl.
  unfold lift, response_json. rewrite Hjson, Herr, Hfalsy. simpl.
  rewrite Hdata, Htruthy. reflexivity.
Qed.

Lemma first_tag_id_no_match name tags :
  Forall (fun t => exists n, Py.getitem t "name" = Returned n
                             /\ Py.eq n (PStr name) = false) tags ->
  first_tag_id name tags = Returned PNone.
Proof.
  induction 1 as [|t tags [n [Hn Hneq]] _ IH]; simpl; [reflexivity|].
  rewrite Hn, Hneq. exact IH.
Qed.

(** [findTagIdWithName] returns [None] when the server lists no tag of
    that name. *)
Lemma findTagIdWithName_no_match self name s response w body err data tags :
  requests_post (request_of self Query.allTags PNone) (world s) = (inr response, w) ->
  status_code response = 200%Z ->
  json response = Some body ->
  Py.get body "error" = Returned err ->
  Py.truthy err = false ->
  Py.get body "data" = Returned data ->
  Py.getitem data "allTags" = Returned (PList tags) ->
  Forall (fun t => exists n, Py.getitem t "name" = Returned n
                             /\ Py.eq n (PStr name) = false) tags ->
  findTagIdWithName self name s
  = (Returned PNone,
     {| world := w; events := events s ++ [EvPost (request_of self Query.allTags PNone)] |}).
Proof.
  intros Hpost Hstatus Hjson Herr Hfalsy Hdata Htags Hnone.
  assert (Htruthy : Py.truthy data = true).
  { destruct data; simpl in Htags; try discriminate.
    destruct kvs; [discriminate | reflexivity]. }
  unfold findTagIdWithName.
  rewrite (bind_returned _ _ _ _ _
             (callGraphQL_data _ _ _ _ _ _ _ _ _ Hpost Hstatus Hjson Herr Hfalsy Hdata Htruthy)).
  unfold bind, lift. rewrite Htags. simpl.
  rewrite (first_tag_id_no_match _ _ Hnone). reflexivity.
Qed.

Lemma run_remove fuel input conn client s :
  mode_is input "remove" ->
  Py.getitem input "server_connection" = Returned conn ->
  StashInterface_init conn = Returned client ->
  run fuel input (PDict []) s
  = bind (removeTag client) (fun _ => ret success_output) s.
Proof.
  intros [args [Hargs Hmode]] Hconn Hinit.
  unfold run, bind, lift, try_except. rewrite Hargs, Hmode.
  change (Py.eq (PStr "remove") (PStr EmptyString) || Py.eq (PStr "remove") (PStr "add"))
    with false.
  change (Py.eq (PStr "remove") (PStr "remove")) with true.
  cbv iota. rewrite Hconn, Hinit.
  destruct (removeTag client s) as [[[]|e|] s1]; reflexivity.
Qed.

Lemma run_add fuel input conn client s mode :
  mode_is input mode ->
  mode = EmptyString \/ mode = "add" ->
  Py.getitem input "server_connection" = Returned conn ->
  StashInterface_init conn = Returned client ->
  run fuel input (PDict []) s
  = bind (addTag client) (fun _ => ret success_output) s.
Proof.
  intros [args [Hargs Hmode]] Hm Hconn Hinit.
  unfold run, bind, lift, try_except. rewrite Hargs, Hmode.
  assert (Hsel : Py.eq (PStr mode) (PStr EmptyString) || Py.eq (PStr mode) (PStr "add") = true)
    by (destruct Hm; subst mode; reflexivity).
  rewrite Hsel, Hconn, Hinit.
  destruct (addTag client s) as [[[]|e|] s1]; reflexivity.
Qed.

(** No session cookie in the connection: [conn.get('SessionCookie')] is
    [None], which has no [get]. *)
Lemma StashInterface_init_without_cookie scheme port_ :
  StashInterface_init (PDict [("Scheme", scheme); ("Port", port_)]) = Raised AttributeError.
Proof. reflexivity. Qed.

Lemma run_command_line_client fuel mode s :
  mode = EmptyString \/ mode = "add" \/ mode = "remove" ->
  run fuel (command_line_input mode) (PDict []) s = (Raised AttributeError, s).
Proof.
  intros [H | [H | H]]; subst mode; reflexivity.
Qed.

End Output.

(** C7.  Started with a first command-line argument, [main] builds the
    synthetic input with that argument as the mode and the connection
    [{"Scheme": "http", "Port": 9999}]; but building the client from that
    connection raises [AttributeError], since the connection has no session
    cookie: for the modes "add", "remove" and the empty mode the process
    stops there, before any request and without terminal output. *)
Theorem command_line_client_raises {RT : Runtime}
  (fuel : nat) (prog : string) (more : list string) (stdin : option pyval) (s : State) :
  (forall mode, invoked_with (prog :: mode :: more) stdin (command_line_input mode))
  /\ Py.getitem (command_line_input "add") "server_connection"
     = Returned (PDict [("Scheme", PStr "http"); ("Port", PInt 9999)])
  /\ StashInterface_init (PDict [("Scheme", PStr "http"); ("Port", PInt 9999)])
     = Raised AttributeError
  /\ (forall mode, In mode [EmptyString; "add"; "remove"] ->
        main fuel (prog :: mode :: more) stdin s
        = (Raised AttributeError,
           record [EvLog Debug "Using command line inputs";
                   EvLog Debug ("Command line inputs: "
                                ++ str (PList (map PStr (mode :: more))))%string] s)).
Proof.
  assert (Hin : forall mode,
             invoked_with (prog :: mode :: more) stdin (command_line_input mode)).
  { intros mode. right. split; [simpl; lia | reflexivity]. }
  repeat split; try exact Hin.
  intros mode Hmode.
  rewrite (main_unfold _ _ _ _ _ (Hin mode)). unfold bind.
  rewrite run_command_line_client; [reflexivity|].
  simpl in Hmode. intuition congruence.
Qed.

Module Failing.

(** The tag exists, but the server has no scene. *)
Definition no_scene : list (exn + Response) :=
  [Remote.all_tags [Remote.tag "7" "Hawwwwt"]; Remote.find_scenes 0 []].

End Failing.

(** C3.  A failure raised by the dispatched operation is re-raised by
    [run] and leaves [main] before [print]: whenever [main] does not return
    normally, nothing has been written to standard output.  So it is for an
    "add" invocation against a server without scenes: the process ends with
    the no-scenes failure and no Invocation Output, where the claim expects
    one terminal output with its error field set. *)
Theorem failure_writes_no_output :
  (forall (RT : Runtime) fuel argv stdin (s : State),
      match main fuel argv stdin s with
      | (Returned _, _) => True
      | (_, s') => stdout (events s') = stdout (events s)
      end)
  /\ fst (main 0 ["pyplugin.py"] (Some (Scripted.invocation "add"))
            (Sample.fresh Failing.no_scene))
     = Raised NoTargetError
  /\ stdout (events (snd (main 0 ["pyplugin.py"] (Some (Scripted.invocation "add"))
                            (Sample.fresh Failing.no_scene))))
     = [].
Proof.
  split; [|split].
  - intros RT fuel argv stdin s. apply main_failure_writes_nothing.
  - vm_compute. reflexivity.
  - vm_compute. reflexivity.
Qed.

(** ** Mode "remove" *)

(** X17.  In an invocation with mode "remove" whose connection yields a
    client (it carries a session cookie) and for which the tag lookup finds
    no tag named [tagName] ([findTagIdWithName] returns [None]), the
    process posts the tag query and nothing else: no mutation is issued, in
    particular no [destroyTag]; it logs that there is nothing to remove,
    returns normally and writes the success Invocation Output, once. *)
Theorem remove_absent_tag_is_noop {RT : Runtime}
  (fuel : nat) (argv : list string) (stdin : option pyval)
  (input conn : pyval) (client : StashInterface) (s s1 : State) :
  invoked_with argv stdin input ->
  mode_is input "remove" ->
  Py.getitem input "server_connection" = Returned conn ->
  StashInterface_init conn = Returned client ->
  findTagIdWithName client tagName (record (input_log argv input) s) = (Returned PNone, s1) ->
  let delta := input_log argv input
               ++ [EvPost (request_of client Query.allTags PNone);
                   EvLog Info "Tag does not exist. Nothing to remove";
                   EvStdout (terminal_text success_output)] in
  main fuel argv stdin s
  = (Returned tt, {| world := world s1; events := events s ++ delta |})
  /\ mutations delta = []
  /\ calls Query.tagDestroy delta = []
  /\ posts delta = [request_of client Query.allTags PNone]
  /\ stdout delta = [terminal_text success_output].
Proof.
  intros Hin Hmode Hconn Hinit Hfind delta.
  pose proof (findTagIdWithName_state client tagName (record (input_log argv input) s)) as Hs1.
  rewrite Hfind in Hs1. simpl in Hs1.
  destruct (input_log_quiet argv input) as [Hposts Hout].
  split; [|repeat split].
  - rewrite (main_unfold _ _ _ _ _ Hin). unfold bind at 1.
    rewrite (run_remove _ _ _ _ _ Hmode Hconn Hinit).
    unfold removeTag, bind. rewrite Hfind. simpl.
    unfold print, terminal_text, success_output, log, ret. rewrite !emit_record.
    rewrite Hs1. unfold record, posted, delta. simpl.
    rewrite <- !app_assoc. reflexivity.
  - unfold delta, mutations. rewrite posts_app, Hposts.
    cbn [posts flat_map app filter]. unfold is_mutation.
    rewrite !has_query_request. reflexivity.
  - unfold delta, calls. rewrite posts_app, Hposts.
    cbn [posts flat_map app filter]. rewrite has_query_request. reflexivity.
  - unfold delta. rewrite posts_app, Hposts. reflexivity.
  - unfold delta. rewrite stdout_app, Hout. reflexivity.
Qed.

(** Witness of X17: the server lists one tag, under another name. *)
Lemma remove_absent_tag_witness :
  fst (main 0 ["pyplugin.py"] (Some (Scripted.invocation "remove"))
         (Sample.fresh [Remote.all_tags [Remote.tag "3" "Outdoors"]]))
  = Returned tt.
Proof.
  refine (f_equal fst (proj1 (@remove_absent_tag_is_noop Scripted.runtime 0
            ["pyplugin.py"] (Some (Scripted.invocation "remove"))
            (Scripted.invocation "remove")
            (PDict [("Scheme", PStr "http"); ("Port", PInt 9999);
                    ("SessionCookie", PDict [("Value", PStr "cookie")])])
            Sample.client
            (Sample.fresh [Remote.all_tags [Remote.tag "3" "Outdoors"]])
            _ _ _ _ _ _))).
  - left. split; [simpl; lia | reflexivity].
  - exists (PDict [("mode", PStr "remove")]). split; reflexivity.
  - reflexivity.
  - reflexivity.
  - reflexivity.
Defined.

(** ** Equality of values and the tag list [addTag] computes *)

Section ValueInduction.

Variable P : pyval -> Prop.
Hypothesis HNone : P PNone.
Hypothesis HBool : forall b, P (PBool b).
Hypothesis HInt : forall z, P (PInt z).
Hypothesis HStr : forall s, P (PStr s).
Hypothesis HList : forall l, Forall P l -> P (PList l).
Hypothesis HDict : forall kvs, Forall (fun kv => P (snd kv)) kvs -> P (PDict kvs).

(** Induction on values that reaches inside lists and dictionaries. *)
Fixpoint pyval_nested_ind (v : pyval) : P v :=
  match v with
  | PNone => HNone
  | PBool b => HBool b
  | PInt z => HInt z
  | PStr s => HStr s
  | PList l =>
      HList l
        ((fix items (l : list pyval) : Forall P l :=
            match l with
            | [] => Forall_nil P
            | x :: rest => Forall_cons x (pyval_nested_ind x) (items rest)
            end) l)
  | PDict kvs =>
      HDict kvs
        ((fix items (kvs : list (string * pyval)) : Forall (fun kv => P (snd kv)) kvs :=
            match kvs with
            | [] => Forall_nil _
            | kv :: rest =>
                Forall_cons kv (pyval_nested_ind (snd kv)) (items rest)
            end) kvs)
  end.

End ValueInduction.

Section TagList.

Lemma eq_items_incl (ys xs : list (string * pyval)) :
  incl xs ys ->
  Forall (fun kv => Py.eq (snd kv) (snd kv) = true) xs ->
  (fix eq_items (xs : list (string * pyval)) : bool :=
     match xs with
     | [] => true
     | (k, v) :: xs' =>
         existsb (fun kw => String.eqb k (fst kw) && Py.eq v (snd kw)) ys
         && eq_items xs'
     end) xs = true.
Proof.
  induction xs as [|[k v] xs IH]; intros Hincl Hrefl; [reflexivity|].
  inversion Hrefl as [|? ? Hv Hrest]; subst. simpl in Hv.
  rewrite IH; [|intros kv Hkv; apply Hincl; right; exact Hkv | exact Hrest].
  rewrite andb_true_r. apply existsb_exists. exists (k, v). split.
  - apply Hincl. left. reflexivity.
  - simpl. rewrite String.eqb_refl, Hv. reflexivity.
Qed.

(** [v == v] holds for every value of the model. *)
Lemma eq_refl_value v : Py.eq v v = true.
Proof.
  induction v as [| b | z | s | l IH | kvs IH] using pyval_nested_ind; simpl.
  - reflexivity.
  - apply Bool.eqb_reflx.
  - apply Z.eqb_refl.
  - apply String.eqb_refl.
  - induction IH as [|x l Hx _ IHl]; [reflexivity|]. rewrite Hx, IHl. reflexivity.
  - rewrite Nat.eqb_refl. simpl. apply eq_items_incl; [apply incl_refl | exact IH].
Qed.

Lemma count_app x l1 l2 : Py.count x (l1 ++ l2) = (Py.count x l1 + Py.count x l2)%nat.
Proof.
  induction l1 as [|y l1 IH]; simpl; [reflexivity|].
  destruct (Py.eq y x); rewrite IH; reflexivity.
Qed.

Lemma count_single x : Py.count x [x] = 1%nat.
Proof. simpl. rewrite eq_refl_value. reflexivity. Qed.

Lemma remove_some_count x l l' :
  Py.remove x l = Some l' -> Py.count x l = S (Py.count x l').
Proof.
  revert l'. induction l as [|y l IH]; intros l' H; simpl in *; [discriminate|].
  destruct (Py.eq y x) eqn:E.
  - inversion H; subst. reflexivity.
  - destruct (Py.remove x l) as [r|]; [|discriminate].
    inversion H; subst. simpl. rewrite E. apply IH. reflexivity.
Qed.

Lemma remove_none_count x l : Py.remove x l = None -> Py.count x l = 0%nat.
Proof.
  induction l as [|y l IH]; intros H; simpl in *; [reflexivity|].
  destruct (Py.eq y x); [discriminate|].
  destruct (Py.remove x l); [discriminate|]. apply IH. reflexivity.
Qed.

Lemma count_zero_remove x l : Py.count x l = 0%nat -> Py.remove x l = None.
Proof.
  intros H. destruct (Py.remove x l) as [l'|] eqn:E; [|reflexivity].
  apply remove_some_count in E. lia.
Qed.

(** The items other than [x], in order. *)
Definition others (x : pyval) (l : list pyval) : list pyval :=
  filter (fun y => negb (Py.eq y x)) l.

Lemma remove_some_others x l l' :
  Py.remove x l = Some l' -> others x l' = others x l.
Proof.
  revert l'. induction l as [|y l IH]; intros l' H; simpl in *; [discriminate|].
  destruct (Py.eq y x) eqn:E.
  - inversion H; subst. reflexivity.
  - destruct (Py.remove x l) as [r|]; [|discriminate].
    inversion H; subst. simpl. rewrite E. simpl. f_equal. apply IH. reflexivity.
Qed.

Lemma others_app x l1 l2 : others x (l1 ++ l2) = others x l1 ++ others x l2.
Proof. apply filter_app. Qed.

Lemma others_single x : others x [x] = [].
Proof. unfold others. simpl. rewrite eq_refl_value. reflexivity. Qed.

(** [with_tag] keeps the other ids in order and ends with the target. *)
Lemma with_tag_shape tagID tagIds :
  exists front,
    with_tag tagID tagIds = front ++ [tagID]
    /\ others tagID front = others tagID tagIds
    /\ Py.count tagID front = Nat.pred (Py.count tagID tagIds).
Proof.
  unfold with_tag. destruct (Py.remove tagID tagIds) as [rest|] eqn:E.
  - exists rest. split; [reflexivity|]. split.
    + apply remove_some_others. exact E.
    + rewrite (remove_some_count _ _ _ E). reflexivity.
  - exists tagIds. split; [reflexivity|]. split; [reflexivity|].
    rewrite (remove_none_count _ _ E). reflexivity.
Qed.

Lemma count_with_tag tagID tagIds :
  Py.count tagID (with_tag tagID tagIds) = Nat.max 1 (Py.count tagID tagIds).
Proof.
  destruct (with_tag_shape tagID tagIds) as [front [Hshape [_ Hcount]]].
  rewrite Hshape, count_app, count_single, Hcount. lia.
Qed.

Lemma others_with_tag tagID tagIds :
  others tagID (with_tag tagID tagIds) = others tagID tagIds.
Proof.
  destruct (with_tag_shape tagID tagIds) as [front [Hshape [Hothers _]]].
  rewrite Hshape, others_app, others_single, app_nil_r. exact Hothers.
Qed.

Lemma remove_last x front :
  Py.count x front = 0%nat -> Py.remove x (front ++ [x]) = Some front.
Proof.
  induction front as [|y front IH]; simpl; intros H.
  - rewrite eq_refl_value. reflexivity.
  - destruct (Py.eq y x); [discriminate|]. rewrite IH by exact H. reflexivity.
Qed.

(** Applied to a list that holds the target at most once, [with_tag] is
    idempotent. *)
Lemma with_tag_idempotent tagID tagIds :
  (Py.count tagID tagIds <= 1)%nat ->
  with_tag tagID (with_tag tagID tagIds) = with_tag tagID tagIds.
Proof.
  intros Hle.
  destruct (with_tag_shape tagID tagIds) as [front [Hshape [_ Hcount]]].
  rewrite Hshape. unfold with_tag at 1.
  rewrite remove_last by lia. reflexivity.
Qed.

End TagList.

(** ** Mode "add" *)

Section Add.

Context {RT : Runtime}.

(** The dictionary [addTag] hands to [updateScene]. *)
Definition update_input (sid : pyval) (tag_ids : list pyval) : pyval :=
  PDict [("id", sid); ("tag_ids", PList tag_ids)].

(** The request [updateScene] posts for it. *)
Definition update_request (client : StashInterface) (sid : pyval) (tag_ids : list pyval)
  : Request :=
  request_of client Query.sceneUpdate (PDict [("input", update_input sid tag_ids)]).

Definition create_request (client : StashInterface) : Request :=
  request_of client Query.tagCreate (PDict [("input", PDict [("name", PStr tagName)])]).

(** The first two steps of [addTag], run from [s]: the tag is looked up, and
    created when the lookup returns [None]; [tagID] is its id, [found] what
    the lookup returned, [s2] the state afterwards. *)
Definition tag_resolved (client : StashInterface) (s : State)
  (found tagID : pyval) (s2 : State) : Prop :=
  exists s1,
    findTagIdWithName client tagName s = (Returned found, s1)
    /\ (if Py.is_None found then createTagWithName client tagName else ret found) s1
       = (Returned tagID, s2).

(** [scene] is a scene with id [sid] whose tags carry the ids [ids]. *)
Definition scene_with (scene sid : pyval) (ids : list pyval) : Prop :=
  Py.is_None scene = false
  /\ Py.getitem scene "id" = Returned sid
  /\ exists tags items,
       Py.getitem scene "tags" = Returned tags
       /\ Py.iter tags = Returned items
       /\ ids_of items = Returned ids.

(** [addTag], run from [s], resolves the tag to [tagID] and is then given,
    by [findRandomSceneId], a scene with id [sid] and tag ids [ids]; [s3] is
    the state after these calls. *)
Definition add_target (client : StashInterface) (s : State)
  (tagID sid : pyval) (ids : list pyval) (s3 : State) : Prop :=
  exists found s2 scene,
    tag_resolved client s found tagID s2
    /\ findRandomSceneId client s2 = (Returned scene, s3)
    /\ scene_with scene sid ids.

(** The posts of the steps before the scene is examined. *)
Definition lookup_posts (client : StashInterface) (found : pyval) : list Event :=
  [EvPost (request_of client Query.allTags PNone)]
  ++ (if Py.is_None found then [EvPost (create_request client)] else [])
  ++ [EvPost (request_of client Query.findScenes
                (PDict [("filter", PDict [("per_page", PInt 1); ("sort", PStr "random")])]))].

Lemma tag_resolved_events client s found tagID s2 :
  tag_resolved client s found tagID s2 ->
  events s2 = events s
              ++ [EvPost (request_of client Query.allTags PNone)]
              ++ (if Py.is_None found then [EvPost (create_request client)] else []).
Proof.
  intros [s1 [Hfind Hcreate]].
  pose proof (findTagIdWithName_state client tagName s) as H1.
  rewrite Hfind in H1. simpl in H1. subst s1.
  destruct (Py.is_None found).
  - pose proof (createTagWithName_state client tagName (posted (request_of client Query.allTags PNone) s)) as H2.
    rewrite Hcreate in H2. simpl in H2. subst s2. simpl.
    rewrite <- app_assoc. reflexivity.
  - inversion Hcreate; subst. simpl. reflexivity.
Qed.

Lemma scene_found_events client s found tagID s2 scene s3 :
  tag_resolved client s found tagID s2 ->
  findRandomSceneId client s2 = (Returned scene, s3) ->
  events s3 = events s ++ lookup_posts client found.
Proof.
  intros Htag Hscene.
  pose proof (findRandomSceneId_state client s2) as H3.
  rewrite Hscene in H3. simpl in H3. subst s3. simpl.
  rewrite (tag_resolved_events _ _ _ _ _ Htag). unfold lookup_posts.
  rewrite <- !app_assoc. reflexivity.
Qed.

Lemma lookup_posts_calls client found :
  calls Query.sceneUpdate (lookup_posts client found) = []
  /\ calls Query.tagDestroy (lookup_posts client found) = []
  /\ mutations (lookup_posts client found)
     = if Py.is_None found then [create_request client] else [].
Proof.
  unfold lookup_posts, calls, mutations, is_mutation, create_request.
  destruct (Py.is_None found); cbn [app posts flat_map filter];
    rewrite ?has_query_request; cbn [app posts flat_map filter];
    rewrite ?has_query_request; repeat split; reflexivity.
Qed.

Lemma bind_ret_state {A B} (m : M A) (b : B) s :
  snd (bind m (fun _ => ret b) s) = snd (m s).
Proof. unfold bind, ret. destruct (m s) as [[a|e|] s1]; reflexivity. Qed.

(** Up to the call of [updateScene], [addTag] is determined by its target. *)
Lemma addTag_reaches_update client s tagID sid ids s3 :
  add_target client s tagID sid ids s3 ->
  addTag client s
  = updateScene client (update_input sid (with_tag tagID ids))
      (record [EvLog Info ("Adding tag to scene " ++ str sid)%string] s3).
Proof.
  intros [found [s2 [scene [[s1 [Hfind Hcreate]] [Hscene [Hsome [Hid [tags [items [Ht [Hi Hids]]]]]]]]]]].
  unfold addTag.
  rewrite (bind_returned _ _ _ _ _ Hfind). cbv beta.
  rewrite (bind_returned _ _ _ _ _ Hcreate). cbv beta.
  rewrite (bind_returned _ _ _ _ _ Hscene). cbv beta.
  rewrite Hsome. unfold bind, lift, log.
  rewrite Ht, Hi, Hids, Hid, emit_record. reflexivity.
Qed.

(** What an "add" run adds to the event list. *)
Lemma add_run_events fuel input mode conn client s tagID sid ids s3 :
  mode_is input mode ->
  mode = EmptyString \/ mode = "add" ->
  Py.getitem input "server_connection" = Returned conn ->
  StashInterface_init conn = Returned client ->
  add_target client s tagID sid ids s3 ->
  exists found,
    events (snd (run fuel input (PDict []) s))
    = events s
      ++ lookup_posts client found
      ++ [EvLog Info ("Adding tag to scene " ++ str sid)%string;
          EvPost (update_request client sid (with_tag tagID ids))].
Proof.
  intros Hmode Hm Hconn Hinit Htarget.
  rewrite (run_add _ _ _ _ _ _ Hmode Hm Hconn Hinit), bind_ret_state.
  rewrite (addTag_reaches_update _ _ _ _ _ _ Htarget), updateScene_state.
  destruct Htarget as [found [s2 [scene [Htag [Hscene _]]]]].
  exists found. unfold posted, record. cbn [events].
  rewrite (scene_found_events _ _ _ _ _ _ _ Htag Hscene).
  unfold update_request. rewrite <- !app_assoc. reflexivity.
Qed.

Lemma add_run_update_calls client found sid tag_ids msg :
  calls Query.sceneUpdate
    (lookup_posts client found
     ++ [EvLog Info msg; EvPost (update_request client sid tag_ids)])
  = [update_request client sid tag_ids].
Proof.
  rewrite calls_app. destruct (lookup_posts_calls client found) as [H _]. rewrite H.
  unfold calls, update_request. cbn [app posts flat_map filter].
  rewrite has_query_request. reflexivity.
Qed.

End Add.

(** The events a computation appends when run from [s]. *)
Definition new_events {RT : Runtime} {A} (m : M A) (s : State) : list Event :=
  skipn (List.length (events s)) (events (snd (m s))).

Lemma new_events_app {RT : Runtime} {A} (m : M A) (s : State) (added : list Event) :
  events (snd (m s)) = events s ++ added -> new_events m s = added.
Proof.
  intros H. unfold new_events. rewrite H, skipn_app, skipn_all, Nat.sub_diag. reflexivity.
Qed.

Module Adding.

(** The tag exists; the one scene carries it once, between two others. *)
Definition tagged_once : list (exn + Response) :=
  [Remote.all_tags [Remote.tag "3" "Outdoors"; Remote.tag "7" "Hawwwwt"];
   Remote.find_scenes 1 [Remote.scene "41" ["3"; "7"; "5"]];
   Remote.scene_updated "41"].

(** The tag exists; the one scene lists it twice. *)
Definition tagged_twice : list (exn + Response) :=
  [Remote.all_tags [Remote.tag "3" "Outdoors"; Remote.tag "7" "Hawwwwt"];
   Remote.find_scenes 1 [Remote.scene "41" ["7"; "3"; "7"]];
   Remote.scene_updated "41"].

(** A second "add" after [tagged_once]: the scene now carries the ids the
    first update sent. *)
Definition once_again : list (exn + Response) :=
  [Remote.all_tags [Remote.tag "3" "Outdoors"; Remote.tag "7" "Hawwwwt"];
   Remote.find_scenes 1 [Remote.scene "41" ["3"; "5"; "7"]];
   Remote.scene_updated "41"].

(** A second "add" after [tagged_twice], likewise. *)
Definition twice_again : list (exn + Response) :=
  [Remote.all_tags [Remote.tag "3" "Outdoors"; Remote.tag "7" "Hawwwwt"];
   Remote.find_scenes 1 [Remote.scene "41" ["3"; "7"; "7"]];
   Remote.scene_updated "41"].

(** Neither the tag nor any scene exists. *)
Definition empty_server : list (exn + Response) :=
  [Remote.all_tags []; Remote.tag_created "9"; Remote.find_scenes 0 []].

Definition connection : pyval :=
  PDict [("Scheme", PStr "http"); ("Port", PInt 9999);
         ("SessionCookie", PDict [("Value", PStr "cookie")])].

Lemma mode_add : mode_is (Scripted.invocation "add") "add".
Proof. exists (PDict [("mode", PStr "add")]). split; reflexivity. Defined.

Lemma target_once :
  add_target Sample.client (Sample.fresh tagged_once) (PStr "7") (PStr "41")
    [PStr "3"; PStr "7"; PStr "5"]
    (snd (findRandomSceneId Sample.client
            (snd (findTagIdWithName Sample.client tagName (Sample.fresh tagged_once))))).
Proof.
  exists (PStr "7"). eexists. exists (Remote.scene "41" ["3"; "7"; "5"]).
  split; [eexists; split; reflexivity|].
  split; [reflexivity|].
  split; [reflexivity|]. split; [reflexivity|].
  eexists. eexists. repeat split; reflexivity.
Defined.

End Adding.

(** C1, amended.  In an invocation with mode "add" (or the empty mode)
    whose lookups go through and give a scene that lists the target tag at
    most once, [updateScene] is called exactly once, and the tag ids it is
    called with hold the id of the target tag exactly once, whether or not
    the scene carried it already. *)
Theorem add_updates_scene_once {RT : Runtime}
  (fuel : nat) (input : pyval) (mode : string) (conn : pyval) (client : StashInterface)
  (s s3 : State) (tagID sid : pyval) (ids : list pyval) :
  mode_is input mode ->
  mode = EmptyString \/ mode = "add" ->
  Py.getitem input "server_connection" = Returned conn ->
  StashInterface_init conn = Returned client ->
  add_target client s tagID sid ids s3 ->
  (Py.count tagID ids <= 1)%nat ->
  calls Query.sceneUpdate (new_events (run fuel input (PDict [])) s)
  = [update_request client sid (with_tag tagID ids)]
  /\ Py.count tagID (with_tag tagID ids) = 1%nat.
Proof.
  intros Hmode Hm Hconn Hinit Htarget Hcount.
  destruct (add_run_events fuel _ _ _ _ _ _ _ _ _ Hmode Hm Hconn Hinit Htarget)
    as [found Hevents].
  rewrite (new_events_app _ _ _ Hevents), add_run_update_calls.
  split; [reflexivity|]. rewrite count_with_tag. lia.
Qed.

(** Witness of C1 as amended: the scene carries the tag once already. *)
Lemma add_updates_scene_once_witness :
  calls Query.sceneUpdate
    (new_events (run 0 (Scripted.invocation "add") (PDict [])) (Sample.fresh Adding.tagged_once))
  = [update_request Sample.client (PStr "41")
       (with_tag (PStr "7") [PStr "3"; PStr "7"; PStr "5"])]
  /\ Py.count (PStr "7") (with_tag (PStr "7") [PStr "3"; PStr "7"; PStr "5"]) = 1%nat.
Proof.
  apply (@add_updates_scene_once Scripted.runtime 0 (Scripted.invocation "add") "add"
           Adding.connection Sample.client (Sample.fresh Adding.tagged_once) _
           (PStr "7") (PStr "41") [PStr "3"; PStr "7"; PStr "5"]
           Adding.mode_add (or_intror eq_refl) eq_refl eq_refl Adding.target_once).
  simpl. lia.
Defined.

(** C1 as stated fails: when the scene lists the target tag twice,
    [updateScene] is called with a list that still holds it twice. *)
Lemma add_keeps_a_duplicate :
  calls Query.sceneUpdate
    (new_events (run 0 (Scripted.invocation "add") (PDict [])) (Sample.fresh Adding.tagged_twice))
  = [update_request Sample.client (PStr "41") [PStr "3"; PStr "7"; PStr "7"]]
  /\ Py.count (PStr "7") [PStr "3"; PStr "7"; PStr "7"] = 2%nat.
Proof. split; vm_compute; reflexivity. Qed.

(** C10.  In an "add" invocation that reaches [updateScene], the tag ids
    passed to it are the scene's ids other than the target, all of them and
    in their original order, followed by the target id in last position. *)
Theorem add_keeps_other_tags {RT : Runtime}
  (fuel : nat) (input : pyval) (mode : string) (conn : pyval) (client : StashInterface)
  (s s3 : State) (tagID sid : pyval) (ids : list pyval) :
  mode_is input mode ->
  mode = EmptyString \/ mode = "add" ->
  Py.getitem input "server_connection" = Returned conn ->
  StashInterface_init conn = Returned client ->
  add_target client s tagID sid ids s3 ->
  exists front,
    calls Query.sceneUpdate (new_events (run fuel input (PDict [])) s)
    = [update_request client sid (front ++ [tagID])]
    /\ others tagID front = others tagID ids
    /\ others tagID (front ++ [tagID]) = others tagID ids
    /\ last (front ++ [tagID]) PNone = tagID.
Proof.
  intros Hmode Hm Hconn Hinit Htarget.
  destruct (add_run_events fuel _ _ _ _ _ _ _ _ _ Hmode Hm Hconn Hinit Htarget)
    as [found Hevents].
  destruct (with_tag_shape tagID ids) as [front [Hshape [Hothers _]]].
  exists front.
  rewrite (new_events_app _ _ _ Hevents), add_run_update_calls, Hshape.
  split; [reflexivity|]. split; [exact Hothers|]. split.
  - rewrite <- Hshape. apply others_with_tag.
  - apply last_last.
Qed.

(** Witness of C10: the ids 3 and 5 stay in this order, 7 moves last. *)
Lemma add_keeps_other_tags_witness :
  exists front,
    calls Query.sceneUpdate
      (new_events (run 0 (Scripted.invocation "add") (PDict []))
         (Sample.fresh Adding.tagged_once))
    = [update_request Sample.client (PStr "41") (front ++ [PStr "7"])]
    /\ others (PStr "7") front = others (PStr "7") [PStr "3"; PStr "7"; PStr "5"]
    /\ others (PStr "7") (front ++ [PStr "7"])
       = others (PStr "7") [PStr "3"; PStr "7"; PStr "5"]
    /\ last (front ++ [PStr "7"]) PNone = PStr "7".
Proof.
  exact (@add_keeps_other_tags Scripted.runtime 0 (Scripted.invocation "add") "add"
           Adding.connection Sample.client (Sample.fresh Adding.tagged_once) _
           (PStr "7") (PStr "41") [PStr "3"; PStr "7"; PStr "5"]
           Adding.mode_add (or_intror eq_refl) eq_refl eq_refl Adding.target_once).
Defined.

(** C8, amended.  Two "add" invocations in succession against the same
    scene, which listed the target tag at most once to begin with: the
    second one meets the tag ids the first one sent, and sends the very same
    list again, in which the target id occurs exactly once. *)
Theorem add_twice_keeps_one_tag {RT : Runtime}
  (fuel : nat) (input : pyval) (mode : string) (conn : pyval) (client : StashInterface)
  (s s3 s' s3' : State) (tagID sid : pyval) (ids : list pyval) :
  mode_is input mode ->
  mode = EmptyString \/ mode = "add" ->
  Py.getitem input "server_connection" = Returned conn ->
  StashInterface_init conn = Returned client ->
  add_target client s tagID sid ids s3 ->
  (Py.count tagID ids <= 1)%nat ->
  run fuel input (PDict []) s = (Returned success_output, s') ->
  add_target client s' tagID sid (with_tag tagID ids) s3' ->
  calls Query.sceneUpdate (new_events (run fuel input (PDict [])) s)
  = [update_request client sid (with_tag tagID ids)]
  /\ calls Query.sceneUpdate (new_events (run fuel input (PDict [])) s')
     = [update_request client sid (with_tag tagID ids)]
  /\ Py.count tagID (with_tag tagID ids) = 1%nat.
Proof.
  intros Hmode Hm Hconn Hinit Htarget Hcount Hfirst Htarget'.
  destruct (add_run_events fuel _ _ _ _ _ _ _ _ _ Hmode Hm Hconn Hinit Htarget)
    as [found Hevents].
  destruct (add_run_events fuel _ _ _ _ _ _ _ _ _ Hmode Hm Hconn Hinit Htarget')
    as [found' Hevents'].
  rewrite (with_tag_idempotent _ _ Hcount) in Hevents'.
  rewrite (new_events_app _ _ _ Hevents), (new_events_app _ _ _ Hevents').
  rewrite !add_run_update_calls, count_with_tag.
  repeat split. lia.
Qed.

Module Twice.

(** The state the first "add" of [Adding.tagged_once] leaves, with the
    answers of [Adding.once_again] still to come. *)
Definition first_run : list (exn + Response) := Adding.tagged_once ++ Adding.once_again.

Definition after_first : State :=
  snd (run 0 (Scripted.invocation "add") (PDict []) (Sample.fresh first_run)).

Lemma first_target :
  add_target Sample.client (Sample.fresh first_run) (PStr "7") (PStr "41")
    [PStr "3"; PStr "7"; PStr "5"]
    (snd (findRandomSceneId Sample.client
            (snd (findTagIdWithName Sample.client tagName (Sample.fresh first_run))))).
Proof.
  exists (PStr "7"). eexists. exists (Remote.scene "41" ["3"; "7"; "5"]).
  split; [eexists; split; reflexivity|].
  split; [reflexivity|].
  split; [reflexivity|]. split; [reflexivity|].
  eexists. eexists. repeat split; reflexivity.
Defined.

Lemma second_target :
  add_target Sample.client after_first (PStr "7") (PStr "41")
    (with_tag (PStr "7") [PStr "3"; PStr "7"; PStr "5"])
    (snd (findRandomSceneId Sample.client
            (snd (findTagIdWithName Sample.client tagName after_first)))).
Proof.
  exists (PStr "7"). eexists. exists (Remote.scene "41" ["3"; "5"; "7"]).
  split; [eexists; split; reflexivity|].
  split; [reflexivity|].
  split; [reflexivity|]. split; [reflexivity|].
  eexists. eexists. repeat split; reflexivity.
Defined.

(** The same two runs against a scene that lists the tag twice. *)
Definition doubled : list (exn + Response) := Adding.tagged_twice ++ Adding.twice_again.

Definition after_doubled : State :=
  snd (run 0 (Scripted.invocation "add") (PDict []) (Sample.fresh doubled)).

End Twice.

(** Witness of C8 as amended. *)
Lemma add_twice_keeps_one_tag_witness :
  calls Query.sceneUpdate
    (new_events (run 0 (Scripted.invocation "add") (PDict [])) (Sample.fresh Twice.first_run))
  = [update_request Sample.client (PStr "41")
       (with_tag (PStr "7") [PStr "3"; PStr "7"; PStr "5"])]
  /\ calls Query.sceneUpdate
       (new_events (run 0 (Scripted.invocation "add") (PDict [])) Twice.after_first)
     = [update_request Sample.client (PStr "41")
          (with_tag (PStr "7") [PStr "3"; PStr "7"; PStr "5"])]
  /\ Py.count (PStr "7") (with_tag (PStr "7") [PStr "3"; PStr "7"; PStr "5"]) = 1%nat.
Proof.
  refine (@add_twice_keeps_one_tag Scripted.runtime 0 (Scripted.invocation "add") "add"
            Adding.connection Sample.client (Sample.fresh Twice.first_run) _
            Twice.after_first _
            (PStr "7") (PStr "41") [PStr "3"; PStr "7"; PStr "5"]
            Adding.mode_add (or_intror eq_refl) eq_refl eq_refl Twice.first_target
            _ _ Twice.second_target).
  - simpl. lia.
  - reflexivity.
Defined.

(** C8 as stated fails: against a scene that lists the target tag twice,
    the first "add" sends a list holding it twice, and so does the second
    one, run against the scene as the first one left it. *)
Lemma add_twice_keeps_a_duplicate :
  calls Query.sceneUpdate
    (new_events (run 0 (Scripted.invocation "add") (PDict [])) (Sample.fresh Twice.doubled))
  = [update_request Sample.client (PStr "41") [PStr "3"; PStr "7"; PStr "7"]]
  /\ fst (run 0 (Scripted.invocation "add") (PDict []) (Sample.fresh Twice.doubled))
     = Returned success_output
  /\ fst (findRandomSceneId Sample.client
            (snd (findTagIdWithName Sample.client tagName Twice.after_doubled)))
     = Returned (Remote.scene "41" ["3"; "7"; "7"])
  /\ calls Query.sceneUpdate
       (new_events (run 0 (Scripted.invocation "add") (PDict [])) Twice.after_doubled)
     = [update_request Sample.client (PStr "41") [PStr "3"; PStr "7"; PStr "7"]]
  /\ Py.count (PStr "7") [PStr "3"; PStr "7"; PStr "7"] = 2%nat.
Proof. repeat split; vm_compute; reflexivity. Qed.

(** C4, amended.  In an invocation with mode "add" (or the empty mode) for
    which [findRandomSceneId] returns [None], the operation fails with the
    no-scenes failure; [updateScene] and [destroyTag] are never called, and
    [createTagWithName] is called exactly when the tag lookup had returned
    [None]. *)
Theorem add_without_scene_fails {RT : Runtime}
  (fuel : nat) (input : pyval) (mode : string) (conn : pyval) (client : StashInterface)
  (s s2 s3 : State) (found tagID : pyval) :
  mode_is input mode ->
  mode = EmptyString \/ mode = "add" ->
  Py.getitem input "server_connection" = Returned conn ->
  StashInterface_init conn = Returned client ->
  tag_resolved client s found tagID s2 ->
  findRandomSceneId client s2 = (Returned PNone, s3) ->
  run fuel input (PDict []) s = (Raised NoTargetError, s3)
  /\ calls Query.sceneUpdate (new_events (run fuel input (PDict [])) s) = []
  /\ calls Query.tagDestroy (new_events (run fuel input (PDict [])) s) = []
  /\ mutations (new_events (run fuel input (PDict [])) s)
     = if Py.is_None found then [create_request client] else [].
Proof.
  intros Hmode Hm Hconn Hinit Htag Hscene.
  assert (Hrun : run fuel input (PDict []) s = (Raised NoTargetError, s3)).
  { rewrite (run_add _ _ _ _ _ _ Hmode Hm Hconn Hinit).
    destruct Htag as [s1 [Hfind Hcreate]].
    unfold addTag.
    rewrite (bind_raised _ _ s NoTargetError s3); [reflexivity|].
    rewrite (bind_returned _ _ _ _ _ Hfind). cbv beta.
    rewrite (bind_returned _ _ _ _ _ Hcreate). cbv beta.
    rewrite (bind_returned _ _ _ _ _ Hscene). reflexivity. }
  split; [exact Hrun|].
  assert (Hnew : new_events (run fuel input (PDict [])) s = lookup_posts client found).
  { apply new_events_app. rewrite Hrun. cbn [snd].
    apply (scene_found_events _ _ _ _ _ _ _ Htag Hscene). }
  rewrite Hnew. exact (lookup_posts_calls client found).
Qed.

(** Witness of C4 as amended: the tag exists, no scene does. *)
Lemma add_without_scene_witness :
  fst (run 0 (Scripted.invocation "add") (PDict []) (Sample.fresh Failing.no_scene))
  = Raised NoTargetError
  /\ mutations (new_events (run 0 (Scripted.invocation "add") (PDict []))
                  (Sample.fresh Failing.no_scene))
     = [].
Proof.
  pose proof (@add_without_scene_fails Scripted.runtime 0 (Scripted.invocation "add") "add"
                Adding.connection Sample.client (Sample.fresh Failing.no_scene) _ _
                (PStr "7") (PStr "7")
                Adding.mode_add (or_intror eq_refl) eq_refl eq_refl
                (ex_intro _ _ (conj eq_refl eq_refl)) eq_refl) as H.
  split.
  - exact (f_equal fst (proj1 H)).
  - exact (proj2 (proj2 (proj2 H))).
Defined.

(** C4 as stated fails: when neither the tag nor any scene exists, the
    run ends with the no-scenes failure after one mutation, the creation of
    the tag. *)
Lemma add_without_scene_creates_tag :
  fst (run 0 (Scripted.invocation "add") (PDict []) (Sample.fresh Adding.empty_server))
  = Raised NoTargetError
  /\ mutations (new_events (run 0 (Scripted.invocation "add") (PDict []))
                  (Sample.fresh Adding.empty_server))
     = [create_request Sample.client]
  /\ calls Query.tagCreate
       (new_events (run 0 (Scripted.invocation "add") (PDict []))
          (Sample.fresh Adding.empty_server))
     <> [].
Proof.
  split; [|split].
  - vm_compute. reflexivity.
  - vm_compute. reflexivity.
  - intros H. vm_compute in H. discriminate H.
Qed.

(** ** What the lookups return, from the answers of the server *)

Section Lookups.

Context {RT : Runtime}.

(** A 200 answer without error member, carrying the truthy [data]. *)
Definition carries_data (response : Response) (data : pyval) : Prop :=
  status_code response = 200%Z
  /\ exists body err,
       json response = Some body
       /\ Py.get body "error" = Returned err
       /\ Py.truthy err = false
       /\ Py.get body "data" = Returned data
       /\ Py.truthy data = true.

Lemma callGraphQL_carries_data self q v s response w data :
  requests_post (request_of self q v) (world s) = (inr response, w) ->
  carries_data response data ->
  callGraphQL self q v s
  = (Returned data, {| world := w; events := events s ++ [EvPost (request_of self q v)] |}).
Proof.
  intros Hpost [Hstatus [body [err [Hjson [Herr [Hfalsy [Hdata Htruthy]]]]]]].
  exact (callGraphQL_data _ _ _ _ _ _ _ _ _ Hpost Hstatus Hjson Herr Hfalsy Hdata Htruthy).
Qed.

(** The tag lookup returns the id of the first listed tag of that name. *)
Lemma findTagIdWithName_answer self name s response w data allTags tags :
  requests_post (request_of self Query.allTags PNone) (world s) = (inr response, w) ->
  carries_data response data ->
  Py.getitem data "allTags" = Returned allTags ->
  Py.iter allTags = Returned tags ->
  findTagIdWithName self name s
  = (first_tag_id name tags,
     {| world := w; events := events s ++ [EvPost (request_of self Query.allTags PNone)] |}).
Proof.
  intros Hpost Hdata Hall Hiter. unfold findTagIdWithName.
  rewrite (bind_returned _ _ _ _ _ (callGraphQL_carries_data _ _ _ _ _ _ _ Hpost Hdata)).
  unfold bind, lift. rewrite Hall, Hiter. reflexivity.
Qed.

(** The scene lookup returns [None] when the server counts no scene. *)
Lemma findRandomSceneId_no_scene self s response w data found count :
  requests_post
    (request_of self Query.findScenes
       (PDict [("filter", PDict [("per_page", PInt 1); ("sort", PStr "random")])]))
    (world s) = (inr response, w) ->
  carries_data response data ->
  Py.getitem data "findScenes" = Returned found ->
  Py.getitem found "count" = Returned count ->
  Py.eq count (PInt 0) = true ->
  fst (findRandomSceneId self s) = Returned PNone.
Proof.
  intros Hpost Hdata Hfound Hcount Hzero. unfold findRandomSceneId.
  rewrite (bind_returned _ _ _ _ _ (callGraphQL_carries_data _ _ _ _ _ _ _ Hpost Hdata)).
  unfold bind, lift. rewrite Hfound, Hcount, Hzero. reflexivity.
Qed.

(** Otherwise it returns the first scene of the answer. *)
Lemma findRandomSceneId_first_scene self s response w data found count scenes scene :
  requests_post
    (request_of self Query.findScenes
       (PDict [("filter", PDict [("per_page", PInt 1); ("sort", PStr "random")])]))
    (world s) = (inr response, w) ->
  carries_data response data ->
  Py.getitem data "findScenes" = Returned found ->
  Py.getitem found "count" = Returned count ->
  Py.eq count (PInt 0) = false ->
  Py.getitem found "scenes" = Returned scenes ->
  Py.getitem0 scenes = Returned scene ->
  fst (findRandomSceneId self s) = Returned scene.
Proof.
  intros Hpost Hdata Hfound Hcount Hsome Hscenes Hfirst. unfold findRandomSceneId.
  rewrite (bind_returned _ _ _ _ _ (callGraphQL_carries_data _ _ _ _ _ _ _ Hpost Hdata)).
  unfold bind, lift. rewrite Hfound, Hcount, Hsome, Hscenes, Hfirst. reflexivity.
Qed.

End Lookups.

(** ** An invocation from end to end *)

Module EndToEnd.

(** No tag of the fixed name, one scene without tags. *)
Definition server : list (exn + Response) :=
  [Remote.all_tags [Remote.tag "3" "Outdoors"];
   Remote.tag_created "9";
   Remote.find_scenes 1 [Remote.scene "41" []];
   Remote.scene_updated "41"].

Definition process : Outcome unit * State :=
  main 0 ["pyplugin.py"] (Some (Scripted.invocation "add")) (Sample.fresh server).

End EndToEnd.

(** Mode "add" against a server without the tag and with one untagged scene:
    tag query, tag creation, scene query, scene update with the new id as
    only tag, then the success output. *)
Example add_end_to_end :
  fst EndToEnd.process = Returned tt
  /\ posts (events (snd EndToEnd.process))
     = [request_of Sample.client Query.allTags PNone;
        create_request Sample.client;
        request_of Sample.client Query.findScenes
          (PDict [("filter", PDict [("per_page", PInt 1); ("sort", PStr "random")])]);
        update_request Sample.client (PStr "41") [PStr "9"]]
  /\ stdout (events (snd EndToEnd.process)) = [terminal_text success_output]
  /\ last (events (snd EndToEnd.process)) (EvSleep 0)
     = EvStdout (terminal_text success_output).
Proof. repeat split; vm_compute; reflexivity. Qed.

(** * Further properties of the plugin and of the client *)

(** ** Reading the mode *)

Section Modes.

Context {RT : Runtime}.

(** The input phase of [main], without its log lines. *)
Definition input_of (argv : list string) (stdin : option pyval) : Outcome pyval :=
  if (List.length argv <? 2)%nat then
    match stdin with
    | Some v => Returned v
    | None => Raised JSONDecodeError
    end
  else Returned (command_line_input (nth 1 argv EmptyString)).

(** [input['args']["mode"]]. *)
Definition mode_of (input : pyval) : Outcome pyval :=
  and_then (Py.getitem input "args") (fun args => Py.getitem args "mode").

(** The five modes [run] tests for. *)
Definition known_mode (m : pyval) : bool :=
  Py.eq m (PStr EmptyString) || Py.eq m (PStr "add") || Py.eq m (PStr "remove")
  || Py.eq m (PStr "long") || Py.eq m (PStr "indef").

Lemma input_of_invoked argv stdin input :
  input_of argv stdin = Returned input -> invoked_with argv stdin input.
Proof.
  unfold input_of, invoked_with. destruct (List.length argv <? 2)%nat eqn:E.
  - destruct stdin; intros H; inversion H; subst. left.
    split; [apply Nat.ltb_lt; exact E | reflexivity].
  - intros H. inversion H; subst. right.
    split; [apply Nat.ltb_ge; exact E | reflexivity].
Qed.

Lemma sleep_forever_events fuel s :
  sleep_forever fuel s = (Running, record (repeat (EvSleep 1) fuel) s).
Proof.
  revert s. induction fuel as [|fuel IH]; intros s; simpl.
  - unfold lift. rewrite record_nil. reflexivity.
  - unfold bind, sleep. rewrite emit_record, IH, record_record. reflexivity.
Qed.

End Modes.

(** X1.  A mode that is none of "", "add", "remove", "long", "indef" is not
    an error: the process posts nothing, logs nothing beyond its input, and
    writes the success output, whatever the rest of the input holds. *)
Theorem unknown_mode_succeeds_silently {RT : Runtime}
  (fuel : nat) (argv : list string) (stdin : option pyval) (input m : pyval) (s : State) :
  invoked_with argv stdin input ->
  mode_of input = Returned m ->
  known_mode m = false ->
  main fuel argv stdin s
  = (Returned tt,
     record (input_log argv input ++ [EvStdout (terminal_text success_output)]) s).
Proof.
  intros Hin Hmode Hknown.
  rewrite (main_unfold _ _ _ _ _ Hin).
  unfold mode_of, and_then in Hmode.
  destruct (Py.getitem input "args") as [args|e|] eqn:Hargs; try discriminate.
  unfold known_mode in Hknown.
  apply orb_false_iff in Hknown. destruct Hknown as [Hknown Hindef].
  apply orb_false_iff in Hknown. destruct Hknown as [Hknown Hlong].
  apply orb_false_iff in Hknown. destruct Hknown as [Hadd Hremove].
  unfold bind at 1. unfold run, bind, lift, try_except.
  rewrite Hargs, Hmode, Hadd, Hremove, Hlong, Hindef.
  unfold ret, print. rewrite emit_record, record_record. reflexivity.
Qed.

(** Witness of X1: the process started as [pyplugin.py nothing]. *)
Lemma unknown_mode_witness :
  main 0 ["pyplugin.py"; "nothing"] None (Sample.fresh [])
  = (Returned tt,
     record (input_log ["pyplugin.py"; "nothing"] (command_line_input "nothing")
             ++ [EvStdout (terminal_text success_output)]) (Sample.fresh [])).
Proof.
  apply (@unknown_mode_succeeds_silently Scripted.runtime 0 ["pyplugin.py"; "nothing"]
           None (command_line_input "nothing") (PStr "nothing") (Sample.fresh [])).
  - right. split; [simpl; lia | reflexivity].
  - reflexivity.
  - reflexivity.
Defined.

(** X2.  When the mode cannot be read (standard input is not JSON, the
    input has no [args] member, or [args] has no [mode] member), the process
    ends with that very exception, before any request and without output. *)
Theorem unreadable_mode_aborts {RT : Runtime}
  (fuel : nat) (argv : list string) (stdin : option pyval) (e : exn) (s : State) :
  and_then (input_of argv stdin) mode_of = Raised e ->
  fst (main fuel argv stdin s) = Raised e
  /\ world (snd (main fuel argv stdin s)) = world s
  /\ posts (new_events (main fuel argv stdin) s) = []
  /\ stdout (new_events (main fuel argv stdin) s) = [].
Proof.
  intros H. unfold and_then in H.
  destruct (input_of argv stdin) as [input|e0|] eqn:Hinput; try discriminate.
  - pose proof (input_of_invoked _ _ _ Hinput) as Hin.
    assert (Hmain : main fuel argv stdin s = (Raised e, record (input_log argv input) s)).
    { rewrite (main_unfold _ _ _ _ _ Hin). unfold bind at 1.
      unfold run, bind, lift. unfold mode_of, and_then in H.
      destruct (Py.getitem input "args") as [args|e1|]; try discriminate.
      - rewrite H. reflexivity.
      - inversion H; subst. reflexivity. }
    destruct (input_log_quiet argv input) as [Hposts Hout].
    assert (Hnew : new_events (main fuel argv stdin) s = input_log argv input).
    { apply new_events_app. rewrite Hmain. reflexivity. }
    rewrite Hnew, Hmain. repeat split; assumption.
  - inversion H; subst e0. unfold input_of in Hinput.
    assert (Hmain : main fuel argv stdin s = (Raised e, s)).
    { unfold main. destruct (List.length argv <? 2)%nat; [|discriminate].
      destruct stdin; [discriminate|]. inversion Hinput; subst. reflexivity. }
    assert (Hnew : new_events (main fuel argv stdin) s = []).
    { apply new_events_app. rewrite Hmain. simpl. rewrite app_nil_r. reflexivity. }
    rewrite Hnew, Hmain. repeat split.
Qed.

(** Witness of X2: the input [{}] has no [args] member. *)
Lemma unreadable_mode_witness :
  fst (main 0 ["pyplugin.py"] (Some (PDict [])) (Sample.fresh [])) = Raised (KeyError "args").
Proof.
  exact (proj1 (@unreadable_mode_aborts Scripted.runtime 0 ["pyplugin.py"]
                  (Some (PDict [])) (KeyError "args") (Sample.fresh []) eq_refl)).
Defined.

(** X3.  Mode "indef" has no way out: for every number of rounds the
    process is still running, having logged one warning and paused once per
    round; it never posts a request and never writes its output. *)
Theorem indefinite_task_never_ends {RT : Runtime}
  (fuel : nat) (argv : list string) (stdin : option pyval) (input : pyval) (s : State) :
  invoked_with argv stdin input ->
  mode_is input "indef" ->
  main fuel argv stdin s
  = (Running,
     record (input_log argv input
             ++ EvLog Warning "Sleeping indefinitely" :: repeat (EvSleep 1) fuel) s)
  /\ posts (EvLog Warning "Sleeping indefinitely" :: repeat (EvSleep 1) fuel) = []
  /\ stdout (EvLog Warning "Sleeping indefinitely" :: repeat (EvSleep 1) fuel) = [].
Proof.
  intros Hin [args [Hargs Hmode]].
  split; [|split].
  - rewrite (main_unfold _ _ _ _ _ Hin). unfold bind at 1.
    unfold run, bind, lift, try_except. rewrite Hargs, Hmode.
    change (Py.eq (PStr "indef") (PStr EmptyString) || Py.eq (PStr "indef") (PStr "add"))
      with false.
    change (Py.eq (PStr "indef") (PStr "remove")) with false.
    change (Py.eq (PStr "indef") (PStr "long")) with false.
    change (Py.eq (PStr "indef") (PStr "indef")) with true.
    cbv iota. unfold doIndefiniteTask, bind, log.
    rewrite emit_record, sleep_forever_events, !record_record. reflexivity.
  - induction fuel as [|fuel IH]; [reflexivity | exact IH].
  - induction fuel as [|fuel IH]; [reflexivity | exact IH].
Qed.

(** Witness of X3: three rounds of [pyplugin.py indef]. *)
Lemma indefinite_task_witness :
  fst (main 3 ["pyplugin.py"; "indef"] None (Sample.fresh [])) = Running.
Proof.
  exact (f_equal fst (proj1 (@indefinite_task_never_ends Scripted.runtime 3
           ["pyplugin.py"; "indef"] None (command_line_input "indef") (Sample.fresh [])
           (or_intror (conj (le_n 2) eq_refl)) (command_line_mode "indef")))).
Defined.

(** ** The client: construction and requests *)

(** The value of a member that may be absent ([d.get(key)] on a dictionary). *)
Definition member (key : string) (kvs : list (string * pyval)) : pyval :=
  match Py.lookup key kvs with
  | Some v => v
  | None => PNone
  end.

Lemma eq_None_is_None v : Py.eq v PNone = Py.is_None v.
Proof. destruct v; reflexivity. Qed.

(** X4.  Whatever the server answers, and whether the call returns or
    raises, [__callGraphQL] posts exactly one request: to the client's URL,
    with the fixed headers and the client's session cookie, and with a body
    that holds the query and, only when variables were given, the variables
    (the key is left out rather than sent as null). *)
Theorem callGraphQL_posts_one_request {RT : Runtime}
  (self : StashInterface) (query : string) (variables : pyval) (s : State) :
  new_events (callGraphQL self query variables) s
  = [EvPost {| req_url := url self;
               req_json := PDict (("query", PStr query)
                                  :: if Py.is_None variables then []
                                     else [("variables", variables)]);
               req_headers :=
                 [ ("Accept-Encoding", "gzip, deflate, br");
                   ("Content-Type", "application/json");
                   ("Accept", "application/json");
                   ("Connection", "keep-alive");
                   ("DNT", "1") ];
               req_cookies := cookies self |}]
  /\ world (snd (callGraphQL self query variables s))
     = snd (requests_post (request_of self query variables) (world s)).
Proof.
  rewrite callGraphQL_state. split; [|reflexivity].
  apply new_events_app. rewrite callGraphQL_state. unfold posted. cbn [events].
  unfold request_of, request_body. rewrite eq_None_is_None.
  destruct (Py.is_None variables); reflexivity.
Qed.

(** X5.  [StashInterface(conn)] succeeds exactly when [conn] is a mapping
    with a [Port], a [Scheme] and a [SessionCookie] that is itself a mapping;
    the client then targets [scheme://localhost:port/graphql] and its
    session cookie is the cookie's [Value] ([None] when that is absent). *)
Theorem StashInterface_init_succeeds_iff {RT : Runtime}
  (conn : pyval) (client : StashInterface) :
  StashInterface_init conn = Returned client
  <-> exists kvs port_ scheme cookie,
        conn = PDict kvs
        /\ Py.lookup "Port" kvs = Some port_
        /\ Py.lookup "Scheme" kvs = Some scheme
        /\ Py.lookup "SessionCookie" kvs = Some (PDict cookie)
        /\ client = {| port := port_;
                       url := (str scheme ++ "://localhost:" ++ str port_ ++ "/graphql")%string;
                       cookies := PDict [("session", member "Value" cookie)] |}.
Proof.
  unfold StashInterface_init, and_then, member. split.
  - destruct conn as [| | | | |kvs]; simpl; try discriminate.
    destruct (Py.lookup "Port" kvs) as [port_|] eqn:Hport; try discriminate.
    destruct (Py.lookup "Scheme" kvs) as [scheme|] eqn:Hscheme; try discriminate.
    destruct (Py.lookup "SessionCookie" kvs) as [[| | | | |cookie]|] eqn:Hcookie;
      simpl; try discriminate.
    intros H. exists kvs, port_, scheme, cookie.
    split; [reflexivity|]. split; [exact Hport|]. split; [exact Hscheme|].
    split; [exact Hcookie|].
    destruct (Py.lookup "Value" cookie); injection H as <-; reflexivity.
  - intros [kvs [port_ [scheme [cookie [Hconn [Hport [Hscheme [Hcookie Hclient]]]]]]]].
    subst conn client. simpl. rewrite Hport, Hscheme, Hcookie. simpl.
    destruct (Py.lookup "Value" cookie); reflexivity.
Qed.

Section ClientAnswers.

Context {RT : Runtime}.

(** [d.get(key)] is falsy: absent, [None], or another falsy value. *)
Definition falsy_member (key : string) (kvs : list (string * pyval)) : Prop :=
  Py.truthy (member key kvs) = false.

Lemma get_member kvs key : Py.get (PDict kvs) key = Returned (member key kvs).
Proof. unfold member. simpl. destruct (Py.lookup key kvs); reflexivity. Qed.

(** The server answers every request with status 200 and a JSON object that
    has neither a truthy [error] nor a truthy [data] member. *)
Definition answers_without_data (w : World) : Prop :=
  forall req, exists response w' kvs,
    requests_post req w = (inr response, w')
    /\ status_code response = 200%Z
    /\ json response = Some (PDict kvs)
    /\ falsy_member "error" kvs
    /\ falsy_member "data" kvs.

Lemma callGraphQL_without_data self q v s :
  answers_without_data (world s) ->
  exists s', callGraphQL self q v s = (Returned PNone, s').
Proof.
  intros H. destruct (H (request_of self q v)) as [response [w' [kvs [Hpost [Hst [Hj [He Hd]]]]]]].
  eexists. unfold callGraphQL, bind, post. rewrite Hpost. simpl. rewrite Hst. simpl.
  unfold lift, response_json. rewrite Hj. rewrite !get_member.
  unfold falsy_member in He, Hd. rewrite He. simpl. rewrite Hd. reflexivity.
Qed.

End ClientAnswers.

(** X6.  [__callGraphQL] returns a value only for an answer with status
    200 whose body is a JSON object; the value is the [data] member when
    that is truthy and [None] otherwise, and the [error] member was falsy or
    its [errors] collection empty. *)
Theorem callGraphQL_returns_only_data {RT : Runtime}
  (self : StashInterface) (query : string) (variables result : pyval) (s s' : State) :
  callGraphQL self query variables s = (Returned result, s') ->
  exists response kvs,
    requests_post (request_of self query variables) (world s) = (inr response, world s')
    /\ status_code response = 200%Z
    /\ json response = Some (PDict kvs)
    /\ result = (if Py.truthy (member "data" kvs) then member "data" kvs else PNone)
    /\ (Py.truthy (member "error" kvs) = false
        \/ exists errors,
             Py.getitem (member "error" kvs) "errors" = Returned errors
             /\ Py.iter errors = Returned []).
Proof.
  unfold callGraphQL, bind, post.
  destruct (requests_post (request_of self query variables) (world s))
    as [[e|response] w] eqn:Hpost; cbv beta iota; try discriminate.
  destruct (negb (status_code response =? 200)%Z) eqn:Hst; try discriminate.
  apply negb_false_iff, Z.eqb_eq in Hst.
  unfold lift, response_json.
  destruct (json response) as [[| | | | |kvs]|] eqn:Hj; try discriminate.
  rewrite !get_member.
  assert (Hdone : forall s0 : State,
             (if Py.truthy (member "data" kvs)
              then fun s1 : State => (Returned (member "data" kvs), s1)
              else ret PNone) s0 = (Returned result, s') ->
             result = (if Py.truthy (member "data" kvs) then member "data" kvs else PNone)
             /\ s0 = s').
  { intros s0. unfold ret. destruct (Py.truthy (member "data" kvs));
      intros H; inversion H; split; reflexivity. }
  destruct (Py.truthy (member "error" kvs)) eqn:Herr.
  - rewrite (get_truthy_getitem _ _ _ (get_member kvs "error") Herr).
    destruct (Py.getitem (member "error" kvs) "errors") as [errors|e|] eqn:Herrors;
      try discriminate.
    destruct (Py.iter errors) as [[|first rest]|e|] eqn:Hiter; try discriminate.
    unfold ret at 1. intros H. apply Hdone in H. destruct H as [Hres Hs'].
    subst s'. exists response, kvs. repeat split; try assumption.
    right. exists errors. split; assumption.
  - unfold ret at 1. intros H. apply Hdone in H. destruct H as [Hres Hs'].
    subst s'. exists response, kvs. repeat split; try assumption.
    left. exact Herr.
Qed.

(** Witness of X6: a tag list comes back as the [data] member. *)
Lemma callGraphQL_returns_witness :
  exists response kvs,
    requests_post (request_of Sample.client Query.allTags PNone)
      (world (Sample.fresh [Remote.all_tags [Remote.tag "3" "Outdoors"]]))
    = (inr response, [])
    /\ status_code response = 200%Z
    /\ json response = Some (PDict kvs)
    /\ PDict [("allTags", PList [Remote.tag "3" "Outdoors"])]
       = (if Py.truthy (member "data" kvs) then member "data" kvs else PNone)
    /\ (Py.truthy (member "error" kvs) = false
        \/ exists errors,
             Py.getitem (member "error" kvs) "errors" = Returned errors
             /\ Py.iter errors = Returned []).
Proof.
  exact (@callGraphQL_returns_only_data Scripted.runtime Sample.client Query.allTags PNone
           (PDict [("allTags", PList [Remote.tag "3" "Outdoors"])])
           (Sample.fresh [Remote.all_tags [Remote.tag "3" "Outdoors"]])
           {| world := []; events := [EvPost (request_of Sample.client Query.allTags PNone)] |}
           eq_refl).
Defined.

(** X7.  A 200 answer without truthy [data] (and without error) is not an
    error for [__callGraphQL], which returns [None]; the three lookups that
    subscript the result then raise [TypeError], while [destroyTag] and
    [updateScene], which ignore the result, return normally. *)
Theorem answer_without_data_breaks_lookups {RT : Runtime}
  (self : StashInterface) (query name : string) (variables id sceneData : pyval)
  (s : State) :
  answers_without_data (world s) ->
  fst (callGraphQL self query variables s) = Returned PNone
  /\ fst (findTagIdWithName self name s) = Raised TypeError
  /\ fst (createTagWithName self name s) = Raised TypeError
  /\ fst (findRandomSceneId self s) = Raised TypeError
  /\ fst (destroyTag self id s) = Returned tt
  /\ fst (updateScene self sceneData s) = Returned tt.
Proof.
  intros H. repeat split.
  - destruct (callGraphQL_without_data self query variables s H) as [s' Hs']. rewrite Hs'.
    reflexivity.
  - unfold findTagIdWithName.
    destruct (callGraphQL_without_data self Query.allTags PNone s H) as [s' Hs'].
    rewrite (bind_returned _ _ _ _ _ Hs'). reflexivity.
  - unfold createTagWithName.
    match goal with |- context [callGraphQL ?a ?b ?c] =>
      destruct (callGraphQL_without_data a b c s H) as [s' Hs'] end.
    rewrite (bind_returned _ _ _ _ _ Hs'). reflexivity.
  - unfold findRandomSceneId.
    match goal with |- context [callGraphQL ?a ?b ?c] =>
      destruct (callGraphQL_without_data a b c s H) as [s' Hs'] end.
    rewrite (bind_returned _ _ _ _ _ Hs'). reflexivity.
  - unfold destroyTag.
    match goal with |- context [callGraphQL ?a ?b ?c] =>
      destruct (callGraphQL_without_data a b c s H) as [s' Hs'] end.
    rewrite (bind_returned _ _ _ _ _ Hs'). reflexivity.
  - unfold updateScene.
    match goal with |- context [callGraphQL ?a ?b ?c] =>
      destruct (callGraphQL_without_data a b c s H) as [s' Hs'] end.
    rewrite (bind_returned _ _ _ _ _ Hs'). reflexivity.
Qed.

Module NoData.

(** The server answers [{}]. *)
Definition server : list (exn + Response) := [Scripted.ok200 (PDict [])].

Lemma without_data : answers_without_data (world (Sample.fresh server)).
Proof.
  intros req. exists {| status_code := 200;
                        content := Scripted.dumps (PDict []);
                        json := Some (PDict []) |}, [], [].
  repeat split; reflexivity.
Defined.

End NoData.

(** Witness of X7: the server answers [{}]. *)
Lemma answer_without_data_witness :
  fst (findTagIdWithName Sample.client tagName (Sample.fresh NoData.server)) = Raised TypeError
  /\ fst (destroyTag Sample.client (PStr "7") (Sample.fresh NoData.server)) = Returned tt.
Proof.
  pose proof (@answer_without_data_breaks_lookups Scripted.runtime Sample.client
                Query.allTags tagName PNone (PStr "7") PNone
                (Sample.fresh NoData.server) NoData.without_data) as H.
  split.
  - exact (proj1 (proj2 H)).
  - exact (proj1 (proj2 (proj2 (proj2 (proj2 H))))).
Defined.

(** X8.  A truthy [error] member whose [errors] collection is empty does
    not raise: the call goes on to the [data] member as if no error had been
    reported. *)
Theorem empty_errors_do_not_raise {RT : Runtime}
  (self : StashInterface) (query : string) (variables : pyval) (s : State)
  (response : Response) (w : World) (kvs : list (string * pyval)) (errors : pyval) :
  requests_post (request_of self query variables) (world s) = (inr response, w) ->
  status_code response = 200%Z ->
  json response = Some (PDict kvs) ->
  Py.truthy (member "error" kvs) = true ->
  Py.getitem (member "error" kvs) "errors" = Returned errors ->
  Py.iter errors = Returned [] ->
  callGraphQL self query variables s
  = (Returned (if Py.truthy (member "data" kvs) then member "data" kvs else PNone),
     {| world := w; events := events s ++ [EvPost (request_of self query variables)] |}).
Proof.
  intros Hpost Hst Hj Herr Herrors Hiter.
  unfold callGraphQL, bind, post. rewrite Hpost. cbv beta iota.
  rewrite Hst. change (negb (200 =? 200)%Z) with false. cbv iota.
  unfold lift, response_json. rewrite Hj, !get_member, Herr.
  rewrite (get_truthy_getitem _ _ _ (get_member kvs "error") Herr), Herrors, Hiter.
  unfold ret. destruct (Py.truthy (member "data" kvs)); reflexivity.
Qed.

Module EmptyErrors.

Definition body : list (string * pyval) :=
  [("error", PDict [("errors", PList [])]);
   ("data", PDict [("allTags", PList [])])].

Definition response : Response :=
  {| status_code := 200; content := Scripted.dumps (PDict body); json := Some (PDict body) |}.

End EmptyErrors.

(** Witness of X8: [{"error": {"errors": []}, "data": {"allTags": []}}]. *)
Lemma empty_errors_witness :
  fst (callGraphQL Sample.client Query.allTags PNone (Sample.fresh [inr EmptyErrors.response]))
  = Returned (PDict [("allTags", PList [])]).
Proof.
  exact (f_equal fst (@empty_errors_do_not_raise Scripted.runtime Sample.client
           Query.allTags PNone (Sample.fresh [inr EmptyErrors.response])
           EmptyErrors.response [] EmptyErrors.body (PList [])
           eq_refl eq_refl eq_refl eq_refl eq_refl eq_refl)).
Defined.

(** X9.  [findTagIdWithName] answers with the first listed tag of the
    given name: the tags before it only need a name, different from the one
    sought, and the tags after it are not looked at, whatever they are.  The
    answer is that tag's [id], or [KeyError] when it has none. *)
Theorem findTagIdWithName_first_match {RT : Runtime}
  (self : StashInterface) (name : string) (s : State) (response : Response) (w : World)
  (data tag n : pyval) (before after : list pyval) :
  requests_post (request_of self Query.allTags PNone) (world s) = (inr response, w) ->
  carries_data response data ->
  Py.getitem data "allTags" = Returned (PList (before ++ tag :: after)) ->
  Forall (fun t => exists n', Py.getitem t "name" = Returned n'
                              /\ Py.eq n' (PStr name) = false) before ->
  Py.getitem tag "name" = Returned n ->
  Py.eq n (PStr name) = true ->
  fst (findTagIdWithName self name s) = Py.getitem tag "id".
Proof.
  intros Hpost Hdata Hall Hbefore Hname Heq.
  rewrite (findTagIdWithName_answer _ _ _ _ _ _ _ _ Hpost Hdata Hall eq_refl).
  cbn [fst]. clear Hall.
  induction Hbefore as [|t before [n' [Hn' Hneq]] _ IH]; simpl.
  - rewrite Hname, Heq. reflexivity.
  - rewrite Hn', Hneq. exact IH.
Qed.

Module FirstMatch.

(** Two tags of the sought name, then an entry that is not a tag at all. *)
Definition tags : list pyval :=
  [Remote.tag "3" "Outdoors"; Remote.tag "7" "Hawwwwt"; Remote.tag "8" "Hawwwwt"; PInt 0].

Definition data : pyval := PDict [("allTags", PList tags)].

End FirstMatch.

(** Witness of X9. *)
Lemma findTagIdWithName_first_match_witness :
  fst (findTagIdWithName Sample.client tagName (Sample.fresh [Remote.all_tags FirstMatch.tags]))
  = Returned (PStr "7").
Proof.
  refine (@findTagIdWithName_first_match Scripted.runtime Sample.client tagName
            (Sample.fresh [Remote.all_tags FirstMatch.tags])
            {| status_code := 200;
               content := Scripted.dumps (PDict [("data", FirstMatch.data)]);
               json := Some (PDict [("data", FirstMatch.data)]) |}
            [] FirstMatch.data (Remote.tag "7" "Hawwwwt") (PStr "Hawwwwt")
            [Remote.tag "3" "Outdoors"] [Remote.tag "8" "Hawwwwt"; PInt 0]
            eq_refl _ eq_refl _ eq_refl eq_refl).
  - split; [reflexivity|].
    exists (PDict [("data", FirstMatch.data)]), PNone. repeat split; reflexivity.
  - constructor; [|constructor]. exists (PStr "Outdoors"). split; reflexivity.
Defined.

(** ** Mode "remove" with an existing tag, and the terminal output *)

Section Terminal.

Context {RT : Runtime}.

(** Whatever the mode, [run] hands back the success output or nothing. *)
Lemma run_returns_success fuel input out s s' :
  run fuel input (PDict []) s = (Returned out, s') -> out = success_output.
Proof.
  unfold run, bind, lift, try_except.
  destruct (Py.getitem input "args") as [args|e|]; try discriminate.
  destruct (Py.getitem args "mode") as [m|e|]; try discriminate.
  match goal with |- context [match ?body s with _ => _ end] =>
    destruct (body s) as [[[]|e|] s1] end; unfold raise, ret;
    intros H; inversion H; reflexivity.
Qed.

End Terminal.

(** X10.  In an invocation with mode "remove" whose tag lookup finds the
    tag, the process posts the tag query and then one [destroyTag] mutation
    carrying the id found, and no other request; it writes the success
    output when, and only when, [destroyTag] returns. *)
Theorem remove_existing_tag_destroys_it {RT : Runtime}
  (fuel : nat) (argv : list string) (stdin : option pyval)
  (input conn tagID : pyval) (client : StashInterface) (s s1 : State) :
  invoked_with argv stdin input ->
  mode_is input "remove" ->
  Py.getitem input "server_connection" = Returned conn ->
  StashInterface_init conn = Returned client ->
  findTagIdWithName client tagName (record (input_log argv input) s) = (Returned tagID, s1) ->
  Py.is_None tagID = false ->
  posts (new_events (main fuel argv stdin) s)
  = [request_of client Query.allTags PNone;
     request_of client Query.tagDestroy (PDict [("input", PDict [("id", tagID)])])]
  /\ mutations (new_events (main fuel argv stdin) s)
     = [request_of client Query.tagDestroy (PDict [("input", PDict [("id", tagID)])])]
  /\ stdout (new_events (main fuel argv stdin) s)
     = match fst (destroyTag client tagID (record [EvLog Info "Destroying tag"] s1)) with
       | Returned _ => [terminal_text success_output]
       | _ => []
       end.
Proof.
  intros Hin Hmode Hconn Hinit Hfind Hsome.
  pose proof (findTagIdWithName_state client tagName (record (input_log argv input) s)) as Hs1.
  rewrite Hfind in Hs1. cbn [snd] in Hs1.
  pose proof (destroyTag_state client tagID (record [EvLog Info "Destroying tag"] s1)) as Hs3.
  set (destroy := request_of client Query.tagDestroy (PDict [("input", PDict [("id", tagID)])])) in *.
  assert (Hmain : events (snd (main fuel argv stdin s))
                  = events s
                    ++ input_log argv input
                    ++ [EvPost (request_of client Query.allTags PNone);
                        EvLog Info "Destroying tag"; EvPost destroy]
                    ++ match fst (destroyTag client tagID
                                    (record [EvLog Info "Destroying tag"] s1)) with
                       | Returned _ => [EvStdout (terminal_text success_output)]
                       | _ => []
                       end).
  { assert (Hrm : removeTag client (record (input_log argv input) s)
                  = destroyTag client tagID (record [EvLog Info "Destroying tag"] s1)).
    { unfold removeTag. rewrite (bind_returned _ _ _ _ _ Hfind). cbv beta.
      rewrite Hsome. unfold bind, log. rewrite emit_record. reflexivity. }
    rewrite (main_unfold _ _ _ _ _ Hin). unfold bind at 1.
    rewrite (run_remove _ _ _ _ _ Hmode Hconn Hinit).
    unfold bind. rewrite Hrm.
    destruct (destroyTag client tagID (record [EvLog Info "Destroying tag"] s1))
      as [[[]|e|] s3]; cbn [snd fst] in *; subst s3 s1;
      unfold ret, print, emit, terminal_text, success_output, posted, record;
      cbn [events snd world]; rewrite <- ?app_assoc; cbn [app];
      rewrite ?app_nil_r; reflexivity. }
  apply new_events_app in Hmain. rewrite Hmain.
  destruct (input_log_quiet argv input) as [Hposts Hout].
  assert (Hstdout_posts : forall t : list Event,
             posts (match fst (destroyTag client tagID
                                 (record [EvLog Info "Destroying tag"] s1)) with
                    | Returned _ => [EvStdout (terminal_text success_output)]
                    | _ => []
                    end) = []).
  { intros _. destruct (fst (destroyTag client tagID _)); reflexivity. }
  split; [|split].
  - rewrite !posts_app, Hposts, (Hstdout_posts []). reflexivity.
  - unfold mutations. rewrite !posts_app, Hposts, (Hstdout_posts []).
    cbn [posts flat_map app filter]. unfold is_mutation, destroy.
    rewrite !has_query_request. reflexivity.
  - rewrite !stdout_app, Hout.
    destruct (fst (destroyTag client tagID _)); reflexivity.
Qed.

Module Removing.

(** The tag exists and its destruction is acknowledged. *)
Definition server : list (exn + Response) :=
  [Remote.all_tags [Remote.tag "7" "Hawwwwt"];
   Scripted.ok200 (PDict [("data", PDict [("tagDestroy", PBool true)])])].

End Removing.

(** Witness of X10: the tag "7" is found and destroyed. *)
Lemma remove_existing_tag_witness :
  mutations (new_events (main 0 ["pyplugin.py"] (Some (Scripted.invocation "remove")))
               (Sample.fresh Removing.server))
  = [request_of Sample.client Query.tagDestroy (PDict [("input", PDict [("id", PStr "7")])])].
Proof.
  refine (proj1 (proj2 (@remove_existing_tag_destroys_it Scripted.runtime 0
            ["pyplugin.py"] (Some (Scripted.invocation "remove"))
            (Scripted.invocation "remove") Adding.connection (PStr "7") Sample.client
            (Sample.fresh Removing.server) _ _ _ eq_refl eq_refl eq_refl eq_refl))).
  - left. split; [simpl; lia | reflexivity].
  - exists (PDict [("mode", PStr "remove")]). split; reflexivity.
Defined.

(** X11.  Whatever the mode and the input, a process that ends normally
    has written to standard output exactly once, as its last act, and what
    it wrote is the success output [{"output": "ok"}]: no [error] member is
    ever produced. *)
Theorem normal_end_writes_success_last {RT : Runtime}
  (fuel : nat) (argv : list string) (stdin : option pyval) (s s' : State) :
  main fuel argv stdin s = (Returned tt, s') ->
  exists before,
    events s' = events s ++ before ++ [EvStdout (terminal_text success_output)]
    /\ stdout before = []
    /\ success_output = PDict [("output", PStr "ok")].
Proof.
  unfold main. fold (command_line_input (nth 1 argv EmptyString)).
  pose proof (read_input_silent argv stdin s) as [es1 [H1 P1]].
  unfold bind at 1.
  match goal with |- context [match ?m s with _ => _ end] =>
    destruct (m s) as [[input|e|] s1] end; try discriminate.
  cbn [snd] in H1.
  pose proof (run_silent fuel input (PDict []) s1) as [es2 [H2 P2]].
  unfold bind.
  destruct (run fuel input (PDict []) s1) as [[output|e|] s2] eqn:Hrun; try discriminate.
  cbn [snd] in H2. apply run_returns_success in Hrun. subst output.
  unfold print, emit. intros H. inversion H; subst. cbn [events].
  exists (es1 ++ es2). rewrite H2, H1, <- !app_assoc.
  split; [reflexivity|]. split; [|reflexivity].
  rewrite stdout_app, (stdout_silent _ P1), (stdout_silent _ P2). reflexivity.
Qed.

(** Witness of X11: the successful "remove" of [Removing.server]. *)
Lemma normal_end_witness :
  exists before,
    events (snd (main 0 ["pyplugin.py"] (Some (Scripted.invocation "remove"))
                   (Sample.fresh Removing.server)))
    = events (Sample.fresh Removing.server)
      ++ before ++ [EvStdout (terminal_text success_output)]
    /\ stdout before = []
    /\ success_output = PDict [("output", PStr "ok")].
Proof.
  exact (@normal_end_writes_success_last Scripted.runtime 0 ["pyplugin.py"]
           (Some (Scripted.invocation "remove")) (Sample.fresh Removing.server)
           (snd (main 0 ["pyplugin.py"] (Some (Scripted.invocation "remove"))
                   (Sample.fresh Removing.server)))
           eq_refl).
Defined.

(** ** The order of the requests *)

(** The query text a request carries. *)
Definition query_text (r : Request) : string :=
  match query_of r with
  | Some q => q
  | None => EmptyString
  end.

(** The query texts of the requests posted, oldest first. *)
Definition queries (es : list Event) : list string := map query_text (posts es).

Section Protocol.

Context {RT : Runtime}.

(** Run from any state, [m] appends events whose requests carry one of the
    query sequences of [Q]. *)
Definition emits {A} (m : M A) (Q : list (list string)) : Prop :=
  forall s, exists es, events (snd (m s)) = events s ++ es /\ In (queries es) Q.

Lemma queries_app es1 es2 : queries (es1 ++ es2) = queries es1 ++ queries es2.
Proof. unfold queries. rewrite posts_app. apply map_app. Qed.

Lemma emits_weaken {A} (m : M A) Q Q' : incl Q Q' -> emits m Q -> emits m Q'.
Proof.
  intros Hincl Hm s. destruct (Hm s) as [es [Hes Hq]]. exists es. auto.
Qed.

Lemma emits_lift {A} (o : Outcome A) : emits (lift o) [[]].
Proof. intros s. exists []. simpl. rewrite app_nil_r. auto. Qed.

Lemma emits_ret {A} (a : A) : emits (ret a) [[]].
Proof. exact (emits_lift (Returned a)). Qed.

Lemma emits_raise {A} (e : exn) : emits (@raise _ A e) [[]].
Proof. exact (emits_lift (Raised e)). Qed.

Lemma emits_log level msg : emits (log level msg) [[]].
Proof. intros s. exists [EvLog level msg]. simpl. auto. Qed.

Lemma emits_print text : emits (print text) [[]].
Proof. intros s. exists [EvStdout (text ++ nl)%string]. simpl. auto. Qed.

Lemma emits_posted {A} (m : M A) req q :
  (forall s, snd (m s) = posted req s) -> query_of req = Some q -> emits m [[q]].
Proof.
  intros Hm Hq s. exists [EvPost req]. rewrite Hm. split; [reflexivity|].
  left. unfold queries, query_text. simpl. rewrite Hq. reflexivity.
Qed.

Lemma emits_bind {A B} (m : M A) (k : A -> M B) Q1 Q2 :
  emits m Q1 -> (forall a, emits (k a) Q2) ->
  emits (bind m k) (Q1 ++ flat_map (fun q1 => map (app q1) Q2) Q1).
Proof.
  intros Hm Hk s. destruct (Hm s) as [es1 [H1 Hq1]]. unfold bind.
  destruct (m s) as [[a|e|] s1]; cbn [snd] in *;
    try (exists es1; split; [exact H1 | apply in_or_app; left; exact Hq1]).
  destruct (Hk a s1) as [es2 [H2 Hq2]].
  exists (es1 ++ es2). rewrite H2, H1, app_assoc. split; [reflexivity|].
  apply in_or_app. right. apply in_flat_map. exists (queries es1).
  split; [exact Hq1|]. rewrite queries_app. apply in_map. exact Hq2.
Qed.

Lemma emits_try_except {A} (body : M A) (handler : exn -> M A) Q1 Q2 :
  emits body Q1 -> (forall e, emits (handler e) Q2) ->
  emits (try_except body handler) (Q1 ++ flat_map (fun q1 => map (app q1) Q2) Q1).
Proof.
  intros Hm Hk s. destruct (Hm s) as [es1 [H1 Hq1]]. unfold try_except.
  destruct (body s) as [[a|e|] s1]; cbn [snd] in *;
    try (exists es1; split; [exact H1 | apply in_or_app; left; exact Hq1]).
  destruct (Hk e s1) as [es2 [H2 Hq2]].
  exists (es1 ++ es2). rewrite H2, H1, app_assoc. split; [reflexivity|].
  apply in_or_app. right. apply in_flat_map. exists (queries es1).
  split; [exact Hq1|]. rewrite queries_app. apply in_map. exact Hq2.
Qed.

Lemma emits_if {A} (b : bool) (m1 m2 : M A) Q1 Q2 :
  emits m1 Q1 -> emits m2 Q2 -> emits (if b then m1 else m2) (Q1 ++ Q2).
Proof.
  intros H1 H2. destruct b.
  - apply (emits_weaken _ Q1); [apply incl_appl, incl_refl | exact H1].
  - apply (emits_weaken _ Q2); [apply incl_appr, incl_refl | exact H2].
Qed.

Lemma emits_findTagIdWithName self name :
  emits (findTagIdWithName self name) [[Query.allTags]].
Proof.
  apply (emits_posted _ (request_of self Query.allTags PNone));
    [intros s; apply findTagIdWithName_state | apply query_of_request].
Qed.

Lemma emits_createTagWithName self name :
  emits (createTagWithName self name) [[Query.tagCreate]].
Proof.
  eapply emits_posted; [intros s; apply createTagWithName_state | apply query_of_request].
Qed.

Lemma emits_findRandomSceneId self : emits (findRandomSceneId self) [[Query.findScenes]].
Proof.
  eapply emits_posted; [intros s; apply findRandomSceneId_state | apply query_of_request].
Qed.

Lemma emits_updateScene self sceneData :
  emits (updateScene self sceneData) [[Query.sceneUpdate]].
Proof.
  eapply emits_posted; [intros s; apply updateScene_state | apply query_of_request].
Qed.

Lemma emits_destroyTag self id : emits (destroyTag self id) [[Query.tagDestroy]].
Proof.
  eapply emits_posted; [intros s; apply destroyTag_state | apply query_of_request].
Qed.

Lemma posts_sleeps n : posts (repeat (EvSleep 1) n) = [].
Proof. induction n as [|n IH]; [reflexivity | exact IH]. Qed.

Lemma emits_doLongTask : emits doLongTask [[]].
Proof.
  intros s. exists long_task_events. rewrite doLongTask_events.
  split; [reflexivity|]. left. reflexivity.
Qed.

Lemma emits_doIndefiniteTask fuel : emits (doIndefiniteTask fuel) [[]].
Proof.
  intros s. exists (EvLog Warning "Sleeping indefinitely" :: repeat (EvSleep 1) fuel).
  unfold doIndefiniteTask, bind, log.
  rewrite emit_record, sleep_forever_events, record_record.
  split; [reflexivity|]. left. unfold queries. cbn [posts flat_map app].
  fold (posts (repeat (EvSleep 1) fuel)). rewrite posts_sleeps. reflexivity.
Qed.

End Protocol.

(** Follows a computation along its binds and branches, collecting the
    query sequences it may post. *)
Ltac emits_steps :=
  repeat (cbv zeta; match goal with
    | |- emits (bind _ _) _ => eapply emits_bind; [|intros]
    | |- emits (try_except _ _) _ => eapply emits_try_except; [|intros]
    | |- emits (lift _) _ => apply emits_lift
    | |- emits (ret _) _ => apply emits_ret
    | |- emits (raise _) _ => apply emits_raise
    | |- emits (log _ _) _ => apply emits_log
    | |- emits (print _) _ => apply emits_print
    | |- emits (findTagIdWithName _ _) _ => apply emits_findTagIdWithName
    | |- emits (createTagWithName _ _) _ => apply emits_createTagWithName
    | |- emits (findRandomSceneId _) _ => apply emits_findRandomSceneId
    | |- emits (updateScene _ _) _ => apply emits_updateScene
    | |- emits (destroyTag _ _) _ => apply emits_destroyTag
    | |- emits doLongTask _ => apply emits_doLongTask
    | |- emits (doIndefiniteTask _) _ => apply emits_doIndefiniteTask
    | |- emits (if _ then _ else _) _ => eapply emits_if
    | |- emits (match ?x with _ => _ end) _ => destruct x
    end).

(** Proves that a computed set of query sequences lies within a listed one. *)
Ltac within :=
  let q := fresh "q" in
  let H := fresh "H" in
  intros q H; cbn [app flat_map map] in H;
  repeat (destruct H as [H|H]; [subst q; cbn [app]; auto 12 with datatypes|]);
  destruct H.

(** The request sequences of the two operations that talk to the server. *)
Definition add_protocol : list (list string) :=
  [ [Query.allTags];
    [Query.allTags; Query.tagCreate];
    [Query.allTags; Query.tagCreate; Query.findScenes];
    [Query.allTags; Query.tagCreate; Query.findScenes; Query.sceneUpdate];
    [Query.allTags; Query.findScenes];
    [Query.allTags; Query.findScenes; Query.sceneUpdate] ].

Definition remove_protocol : list (list string) :=
  [ [Query.allTags]; [Query.allTags; Query.tagDestroy] ].

Lemma emits_addTag {RT : Runtime} client : emits (addTag client) add_protocol.
Proof.
  eapply emits_weaken; [|unfold addTag; emits_steps].
  unfold add_protocol. within.
Qed.

Lemma emits_removeTag {RT : Runtime} client : emits (removeTag client) remove_protocol.
Proof.
  eapply emits_weaken; [|unfold removeTag; emits_steps].
  unfold remove_protocol. within.
Qed.

(** X12.  Whatever the input and whatever the server answers, the requests
    of one process are, in this order, a tag query, then for "add" an
    optional tag creation, a scene query and a scene update, or for "remove"
    a tag destruction; the sequence stops early at the first failure.  So a
    process posts at most four requests, never destroys and updates in the
    same run, and never posts anything before the tag query. *)
Theorem requests_follow_protocol {RT : Runtime}
  (fuel : nat) (argv : list string) (stdin : option pyval) (s : State) :
  In (queries (new_events (main fuel argv stdin) s))
     [ [];
       [Query.allTags];
       [Query.allTags; Query.tagCreate];
       [Query.allTags; Query.tagCreate; Query.findScenes];
       [Query.allTags; Query.tagCreate; Query.findScenes; Query.sceneUpdate];
       [Query.allTags; Query.findScenes];
       [Query.allTags; Query.findScenes; Query.sceneUpdate];
       [Query.allTags; Query.tagDestroy] ]
  /\ (List.length (posts (new_events (main fuel argv stdin) s)) <= 4)%nat.
Proof.
  assert (H : emits (main fuel argv stdin)
                [ [];
                  [Query.allTags];
                  [Query.allTags; Query.tagCreate];
                  [Query.allTags; Query.tagCreate; Query.findScenes];
                  [Query.allTags; Query.tagCreate; Query.findScenes; Query.sceneUpdate];
                  [Query.allTags; Query.findScenes];
                  [Query.allTags; Query.findScenes; Query.sceneUpdate];
                  [Query.allTags; Query.tagDestroy] ]).
  { eapply emits_weaken.
    2: { unfold main, run, readJSONInput.
         repeat (cbv zeta; match goal with
           | |- emits (addTag _) _ => apply emits_addTag
           | |- emits (removeTag _) _ => apply emits_removeTag
           | |- emits (bind _ _) _ => eapply emits_bind; [|intros]
           | |- emits (try_except _ _) _ => eapply emits_try_except; [|intros]
           | |- emits (lift _) _ => apply emits_lift
           | |- emits (ret _) _ => apply emits_ret
           | |- emits (raise _) _ => apply emits_raise
           | |- emits (log _ _) _ => apply emits_log
           | |- emits (print _) _ => apply emits_print
           | |- emits doLongTask _ => apply emits_doLongTask
           | |- emits (doIndefiniteTask _) _ => apply emits_doIndefiniteTask
           | |- emits (if _ then _ else _) _ => eapply emits_if
           | |- emits (match ?x with _ => _ end) _ => destruct x
           end). }
    unfold add_protocol, remove_protocol. within. }
  destruct (H s) as [es [Hes Hq]]. rewrite (new_events_app _ _ _ Hes).
  split; [exact Hq|].
  replace (List.length (posts es)) with (List.length (queries es))
    by (unfold queries; apply length_map).
  cbn [In] in Hq.
  repeat (destruct Hq as [Hq|Hq]; [rewrite <- Hq; simpl; lia|]). destruct Hq.
Qed.

(** ** One endpoint per invocation *)

Section Endpoint.

Context {RT : Runtime}.

(** A request sent as [client] sends them. *)
Definition to_endpoint (client : StashInterface) (e : Event) : Prop :=
  match e with
  | EvPost r =>
      req_url r = url client /\ req_headers r = headers /\ req_cookies r = cookies client
  | _ => True
  end.

(** Anything but a request. *)
Definition no_post (e : Event) : Prop :=
  match e with
  | EvPost _ => False
  | _ => True
  end.

(** A request sent by the client built from [input["server_connection"]]. *)
Definition from_connection (input : pyval) (e : Event) : Prop :=
  match e with
  | EvPost r =>
      exists conn client,
        Py.getitem input "server_connection" = Returned conn
        /\ StashInterface_init conn = Returned client
        /\ req_url r = url client
        /\ req_headers r = headers
        /\ req_cookies r = cookies client
  | _ => True
  end.

Lemma only_weaken {A} (P1 P2 : Event -> Prop) (m : M A) :
  (forall e, P1 e -> P2 e) -> only P1 m -> only P2 m.
Proof.
  intros Himp Hm s. destruct (Hm s) as [es [Hes HP]]. exists es.
  split; [exact Hes|]. eapply Forall_impl; [exact Himp | exact HP].
Qed.

(** A pure step hands its result, and the fact that it returned, to what
    follows. *)
Lemma only_bind_lift {A B} (P : Event -> Prop) (o : Outcome A) (k : A -> M B) :
  (forall a, o = Returned a -> only P (k a)) -> only P (bind (lift o) k).
Proof.
  intros Hk s. unfold bind, lift. destruct o as [a|e|].
  - exact (Hk a eq_refl s).
  - exists []. simpl. rewrite app_nil_r. auto.
  - exists []. simpl. rewrite app_nil_r. auto.
Qed.

Lemma callGraphQL_to_endpoint client q v :
  only (to_endpoint client) (callGraphQL client q v).
Proof.
  intros s. exists [EvPost (request_of client q v)]. rewrite callGraphQL_state.
  split; [reflexivity|]. constructor; [|constructor]. simpl. auto.
Qed.

Lemma addTag_to_endpoint client : only (to_endpoint client) (addTag client).
Proof.
  unfold addTag, findTagIdWithName, createTagWithName, findRandomSceneId,
    updateScene, log.
  footprint; apply callGraphQL_to_endpoint.
Qed.

Lemma removeTag_to_endpoint client : only (to_endpoint client) (removeTag client).
Proof.
  unfold removeTag, findTagIdWithName, destroyTag, log.
  footprint; apply callGraphQL_to_endpoint.
Qed.

Lemma doLongTask_no_post : only no_post doLongTask.
Proof. unfold doLongTask, log, sleep. footprint. Qed.

Lemma doIndefiniteTask_no_post fuel : only no_post (doIndefiniteTask fuel).
Proof.
  unfold doIndefiniteTask, log. footprint.
  induction fuel as [|fuel IH]; simpl; unfold sleep; footprint.
Qed.

Lemma no_post_from_connection input e : no_post e -> from_connection input e.
Proof. destruct e; simpl; auto. contradiction. Qed.

Lemma to_endpoint_from_connection input conn client e :
  Py.getitem input "server_connection" = Returned conn ->
  StashInterface_init conn = Returned client ->
  to_endpoint client e -> from_connection input e.
Proof.
  intros Hconn Hinit. destruct e; simpl; auto.
  intros [Hurl [Hh Hc]]. exists conn, client. auto.
Qed.

Lemma run_from_connection fuel input output :
  only (from_connection input) (run fuel input output).
Proof.
  unfold run.
  apply only_bind; [apply only_lift | intros args].
  apply only_bind; [apply only_lift | intros modeArg].
  apply only_bind.
  - apply only_try_except; [|intros e; apply only_raise].
    destruct (Py.eq modeArg (PStr EmptyString) || Py.eq modeArg (PStr "add")).
    { apply only_bind_lift. intros conn Hconn.
      apply only_bind_lift. intros client Hinit.
      eapply only_weaken; [|apply addTag_to_endpoint].
      intros e. apply (to_endpoint_from_connection _ _ _ _ Hconn Hinit). }
    destruct (Py.eq modeArg (PStr "remove")).
    { apply only_bind_lift. intros conn Hconn.
      apply only_bind_lift. intros client Hinit.
      eapply only_weaken; [|apply removeTag_to_endpoint].
      intros e. apply (to_endpoint_from_connection _ _ _ _ Hconn Hinit). }
    destruct (Py.eq modeArg (PStr "long")).
    { eapply only_weaken; [|apply doLongTask_no_post].
      intros e. apply no_post_from_connection. }
    destruct (Py.eq modeArg (PStr "indef")).
    { eapply only_weaken; [|apply doIndefiniteTask_no_post].
      intros e. apply no_post_from_connection. }
    apply only_ret.
  - intros _. destruct output; first [apply only_ret | apply only_raise].
Qed.

End Endpoint.

(** X13.  Every request of an invocation is sent as the one client built
    from the input's [server_connection] sends them: to that client's URL,
    with the fixed headers and with its session cookie.  In particular a run
    whose connection yields no client posts nothing. *)
Theorem requests_use_the_connection {RT : Runtime}
  (fuel : nat) (input output : pyval) (s : State) :
  Forall (from_connection input) (new_events (run fuel input output) s)
  /\ ((forall conn client, Py.getitem input "server_connection" = Returned conn ->
                           StashInterface_init conn <> Returned client) ->
      posts (new_events (run fuel input output) s) = []).
Proof.
  destruct (run_from_connection fuel input output s) as [es [Hes HP]].
  rewrite (new_events_app _ _ _ Hes). split; [exact HP|].
  intros Hnone. clear Hes.
  induction HP as [|ev es Hev _ IH]; [reflexivity|].
  destruct ev; simpl in *; try exact IH.
  destruct Hev as [conn [client [Hconn [Hinit _]]]].
  destruct (Hnone conn client Hconn Hinit).
Qed.

(** ** The scene lookup and the tag list *)

(** X14.  [findRandomSceneId] trusts the count of the answer: when the
    count equals 0 it returns [None] without looking at the scenes, and
    otherwise it returns the first scene listed, raising [IndexError] when
    the list is empty and [KeyError] when there is none. *)
Theorem findRandomSceneId_trusts_count {RT : Runtime}
  (self : StashInterface) (s : State) (response : Response) (w : World)
  (data found count : pyval) :
  requests_post
    (request_of self Query.findScenes
       (PDict [("filter", PDict [("per_page", PInt 1); ("sort", PStr "random")])]))
    (world s) = (inr response, w) ->
  carries_data response data ->
  Py.getitem data "findScenes" = Returned found ->
  Py.getitem found "count" = Returned count ->
  fst (findRandomSceneId self s)
  = if Py.eq count (PInt 0) then Returned PNone
    else and_then (Py.getitem found "scenes") Py.getitem0.
Proof.
  intros Hpost Hdata Hfound Hcount. unfold findRandomSceneId.
  rewrite (bind_returned _ _ _ _ _ (callGraphQL_carries_data _ _ _ _ _ _ _ Hpost Hdata)).
  unfold bind, lift, and_then. rewrite Hfound, Hcount.
  destruct (Py.eq count (PInt 0)); [reflexivity|].
  destruct (Py.getitem found "scenes") as [scenes|e|]; reflexivity.
Qed.

(** Witness of X14: a count of 1 with an empty list of scenes. *)
Lemma findRandomSceneId_trusts_count_witness :
  fst (findRandomSceneId Sample.client (Sample.fresh [Remote.find_scenes 1 []]))
  = Raised IndexError.
Proof.
  refine (@findRandomSceneId_trusts_count Scripted.runtime Sample.client
            (Sample.fresh [Remote.find_scenes 1 []])
            {| status_code := 200;
               content := Scripted.dumps
                 (PDict [("data", PDict [("findScenes",
                    PDict [("count", PInt 1); ("scenes", PList [])])])]);
               json := Some
                 (PDict [("data", PDict [("findScenes",
                    PDict [("count", PInt 1); ("scenes", PList [])])])]) |}
            []
            (PDict [("findScenes", PDict [("count", PInt 1); ("scenes", PList [])])])
            (PDict [("count", PInt 1); ("scenes", PList [])]) (PInt 1)
            eq_refl _ eq_refl eq_refl).
  split; [reflexivity|].
  eexists. exists PNone. repeat split; reflexivity.
Defined.

Lemma remove_some_length x l l' :
  Py.remove x l = Some l' -> List.length l = S (List.length l').
Proof.
  revert l'. induction l as [|y l IH]; intros l' H; simpl in *; [discriminate|].
  destruct (Py.eq y x).
  - inversion H; subst. reflexivity.
  - destruct (Py.remove x l) as [r|]; [|discriminate].
    inversion H; subst. simpl. f_equal. apply IH. reflexivity.
Qed.

(** X15.  The tag list [addTag] sends is never empty; it is one longer
    than the scene's list when the target was absent from it, and of the
    same length when it was present, however many times. *)
Theorem with_tag_length (tagID : pyval) (tagIds : list pyval) :
  with_tag tagID tagIds <> []
  /\ List.length (with_tag tagID tagIds)
     = if (Py.count tagID tagIds =? 0)%nat then S (List.length tagIds)
       else List.length tagIds.
Proof.
  split.
  - unfold with_tag. destruct (Py.remove tagID tagIds); intros H;
      apply app_eq_nil in H; destruct H; discriminate.
  - unfold with_tag. destruct (Py.remove tagID tagIds) as [rest|] eqn:E.
    + rewrite (remove_some_count _ _ _ E), (remove_some_length _ _ _ E).
      rewrite length_app. simpl. lia.
    + rewrite (remove_none_count _ _ E), length_app. simpl. lia.
Qed.

(** X16.  A failure of [addTag] or of [removeTag] is the end of the
    process: [main] ends with the very exception raised, in the state the
    operation left, nothing being done or written afterwards. *)
Theorem operation_failure_ends_process {RT : Runtime}
  (fuel : nat) (argv : list string) (stdin : option pyval)
  (input conn : pyval) (mode : string) (client : StashInterface)
  (e : exn) (s s' : State) :
  invoked_with argv stdin input ->
  mode_is input mode ->
  Py.getitem input "server_connection" = Returned conn ->
  StashInterface_init conn = Returned client ->
  ((mode = EmptyString \/ mode = "add")
   /\ addTag client (record (input_log argv input) s) = (Raised e, s'))
  \/ (mode = "remove"
      /\ removeTag client (record (input_log argv input) s) = (Raised e, s')) ->
  main fuel argv stdin s = (Raised e, s').
Proof.
  intros Hin Hmode Hconn Hinit Hop.
  rewrite (main_unfold _ _ _ _ _ Hin). apply bind_raised.
  destruct Hop as [[Hm Hadd] | [Hm Hremove]].
  - rewrite (run_add _ _ _ _ _ _ Hmode Hm Hconn Hinit). apply bind_raised. exact Hadd.
  - subst mode. rewrite (run_remove _ _ _ _ _ Hmode Hconn Hinit).
    apply bind_raised. exact Hremove.
Qed.

(** Witness of X16: the tag lookup of an "add" is answered with a 404. *)
Lemma operation_failure_witness :
  fst (main 0 ["pyplugin.py"] (Some (Scripted.invocation "add"))
         (Sample.fresh [inr Sample.not_found]))
  = Raised (TransportError 404 "404 page not found" Query.allTags PNone).
Proof.
  refine (f_equal fst (@operation_failure_ends_process Scripted.runtime 0
            ["pyplugin.py"] (Some (Scripted.invocation "add"))
            (Scripted.invocation "add") Adding.connection "add" Sample.client
            (TransportError 404 "404 page not found" Query.allTags PNone)
            (Sample.fresh [inr Sample.not_found]) _
            _ Adding.mode_add eq_refl eq_refl
            (or_introl (conj (or_intror eq_refl) eq_refl)))).
  left. split; [simpl; lia | reflexivity].
Defined.

(** ** Mode "remove" without a session cookie *)

Module Absent.

(** The server lists one tag, under another name than the fixed one. *)
Definition server : list (exn + Response) := [Remote.all_tags [Remote.tag "3" "Outdoors"]].

End Absent.

(** C9.  A "remove" invocation whose connection carries no session cookie
    never gets to the tag lookup: building the client raises
    [AttributeError], so the process posts nothing and writes no Invocation
    Output, also when the server holds no tag of the fixed name and a
    successful no-op is expected.  This is so for the process started as
    [pyplugin.py remove], whose connection is the synthetic one, and for the
    same input read from standard input; the server of [Absent.server] is
    never asked. *)
Theorem remove_without_session_cookie_raises :
  (forall (RT : Runtime) (fuel : nat) (prog : string) (more : list string)
          (stdin : option pyval) (s : State),
      main fuel (prog :: "remove" :: more) stdin s
      = (Raised AttributeError,
         record (input_log (prog :: "remove" :: more) (command_line_input "remove")) s)
      /\ posts (new_events (main fuel (prog :: "remove" :: more) stdin) s) = []
      /\ stdout (new_events (main fuel (prog :: "remove" :: more) stdin) s) = []
      /\ main fuel [prog] (Some (command_line_input "remove")) s
         = (Raised AttributeError,
            record (input_log [prog] (command_line_input "remove")) s)
      /\ stdout (new_events (main fuel [prog] (Some (command_line_input "remove"))) s) = [])
  /\ fst (main 0 ["pyplugin.py"; "remove"] None (Sample.fresh Absent.server))
     = Raised AttributeError
  /\ world (snd (main 0 ["pyplugin.py"; "remove"] None (Sample.fresh Absent.server)))
     = Absent.server
  /\ stdout (events (snd (main 0 ["pyplugin.py"; "remove"] None
                            (Sample.fresh Absent.server))))
     = [].
Proof.
  split; [|repeat split].
  intros RT fuel prog more stdin s.
  assert (Hargv : main fuel (prog :: "remove" :: more) stdin s
                  = (Raised AttributeError,
                     record (input_log (prog :: "remove" :: more)
                               (command_line_input "remove")) s)).
  { rewrite (main_unfold _ _ _ (command_line_input "remove")).
    - apply bind_raised. apply run_command_line_client. right. right. reflexivity.
    - right. split; [simpl; lia | reflexivity]. }
  assert (Hstdin : main fuel [prog] (Some (command_line_input "remove")) s
                   = (Raised AttributeError,
                      record (input_log [prog] (command_line_input "remove")) s)).
  { rewrite (main_unfold _ _ _ (command_line_input "remove")).
    - apply bind_raised. apply run_command_line_client. right. right. reflexivity.
    - left. split; [simpl; lia | reflexivity]. }
  assert (Hnew : new_events (main fuel (prog :: "remove" :: more) stdin) s
                 = input_log (prog :: "remove" :: more) (command_line_input "remove")).
  { apply new_events_app. rewrite Hargv. reflexivity. }
  assert (Hnew' : new_events (main fuel [prog] (Some (command_line_input "remove"))) s
                  = input_log [prog] (command_line_input "remove")).
  { apply new_events_app. rewrite Hstdin. reflexivity. }
  rewrite Hnew, Hnew'.
  destruct (input_log_quiet (prog :: "remove" :: more) (command_line_input "remove"))
    as [Hposts Hout].
  destruct (input_log_quiet [prog] (command_line_input "remove")) as [_ Hout'].
  repeat split; assumption.
Qed.
